(** * OpenCTI background processing: retention manager and background tasks

    A shallow embedding of
      - [opencti-graphql/src/manager/retentionManager.ts]
        ([deleteElement], [getElementsToDelete], [executeProcessing],
        [retentionHandler]) and
      - the background-task domain that follows it in the same source file
        ([checkActionValidity], [createDefaultTask], [createListTask]).

    Asynchronous code is modelled sequentially (every [await] is a plain
    call).  A thrown exception is the left injection of a sum; the calls made
    to the external collaborators (store, file storage, logger, audit
    listener) are appended to an explicit, chronological trace.  What an
    external collaborator answers is not fixed by the source: it is a field of
    a record of collaborators, and may depend on everything that happened
    before (the trace so far).

    Collaborators that the source calls as plain expressions and never
    guards ([isUserHasCapability], [isKnowledge], [getParentTypes], the two
    loaders by id, the clock and the id generators) are total functions;
    those it awaits for an effect or a page, and [JSON.parse], may throw. *)

From Stdlib Require Import String List Bool Arith ZArith Lia.
Import ListNotations.
Open Scope string_scope.
Open Scope list_scope.

Set Implicit Arguments.
Set Warnings "-register-all".

(** ** Exceptions *)

(** The exceptions the two modules throw themselves, and one constructor for
    whatever an external collaborator throws. *)
Inductive error : Type :=
| ForbiddenAccess (message : option string)   (* ForbiddenAccess(), ForbiddenAccess('...') *)
| UnsupportedError (message : string)         (* UnsupportedError('...') *)
| JsError (message : string)                  (* throw Error(`...`) *)
| ExternalError (payload : string).           (* thrown by a collaborator *)

Definition Exc (A : Type) : Type := (error + A)%type.

(** ** A trace-and-exception monad *)

Section Monad.
Variable E : Type.            (* the events of the trace *)

Definition M (A : Type) : Type := list E -> Exc A * list E.

Definition ret (A : Type) (a : A) : M A := fun tr => (inr a, tr).

Definition bind (A B : Type) (m : M A) (k : A -> M B) : M B :=
  fun tr =>
    match m tr with
    | (inr a, tr') => k a tr'
    | (inl e, tr') => (inl e, tr')
    end.

Definition throw (A : Type) (e : error) : M A := fun tr => (inl e, tr).

(** [try { m } catch (e) { h e }] *)
Definition try_catch (A : Type) (m : M A) (h : error -> M A) : M A :=
  fun tr =>
    match m tr with
    | (inr a, tr') => (inr a, tr')
    | (inl e, tr') => h e tr'
    end.

(** A collaborator that cannot fail from the caller's point of view (the
    logger). *)
Definition emit (ev : E) : M unit := fun tr => (inr tt, tr ++ [ev]).

(** A call to a collaborator: the call is recorded, and the collaborator
    answers from what happened before the call. *)
Definition call (A : Type) (ev : E) (answer : list E -> Exc A) : M A :=
  fun tr => (answer tr, tr ++ [ev]).

(** A read of the outside world that leaves no mark in the trace. *)
Definition query (A : Type) (answer : list E -> Exc A) : M A :=
  fun tr => (answer tr, tr).

Definition observe (A : Type) (f : list E -> A) : M A :=
  fun tr => (inr (f tr), tr).

(** [for (let index = 0; index < xs.length; index += 1) { body xs[index] }] *)
Fixpoint for_each (A : Type) (body : A -> M unit) (xs : list A) : M unit :=
  match xs with
  | [] => ret tt
  | x :: xs' => bind (body x) (fun _ => for_each body xs')
  end.
End Monad.

Arguments ret {E A} a.
Arguments throw {E A} e.
Arguments emit {E} ev.

Notation "x <- m ;; k" := (bind m (fun x => k))
  (at level 61, m at next level, right associativity).
Notation "m ;;; k" := (bind m (fun _ => k))
  (at level 61, right associativity).

(** JavaScript truthiness of a possibly missing string: [undefined], [null]
    and the empty string are falsy. *)
Definition truthy (s : option string) : bool :=
  match s with
  | Some s' => negb (s' =? "")
  | None => false
  end.

(** ** Retention manager: data model ([retentionManager.ts]) *)

Module RetentionManager.

(** [work?.status] of an entry of [node.works]. *)
Record Work : Type := { status : option string }.

(** The fields of an element-to-delete that the manager reads. *)
Record Node : Type := {
  id : string;
  internal_id : string;
  entity_type : option string;
  updated_at : string;
  uploadStatus : option string;
  works : option (list (option Work))
}.

Record Edge : Type := { node : Node }.

Record PageInfo : Type := {
  endCursor : string;
  hasNextPage : bool;
  globalCount : nat
}.

(** The paginated result of the scope query adapter. *)
Record Connection : Type := { edges : list Edge; pageInfo : PageInfo }.

Record RetentionRule : Type := {
  rule_id : string;
  name : string;
  max_retention : nat;
  retention_unit : option string;
  filters : option string;
  scope : string
}.

(** The object literal [patch] of [executeProcessing]. *)
Record Patch : Type := {
  last_execution_date : string;
  remaining_count : nat;
  last_deleted_count : nat
}.

(** The three [logApp.debug] template strings and the handler's, kept
    structured. *)
Inductive debug_message : Type :=
| Executing_rule (rule_name : string)
| Clearing_elements (n : nat)
| Deleting_after (node_id : string) (humanDuration : string)
| Execution_for_rules (n : nat).

(** What the manager does to the outside world, in order. *)
Inductive event : Type :=
| deleteElementById_call (nodeId : string) (nodeEntityType : option string)
    (* deleteElementById(context, RETENTION_MANAGER_USER, nodeId, nodeEntityType, { forceDelete: true }) *)
| deleteFile_call (nodeId : string)
| patchAttribute_call (ruleId : string) (entityType : string) (patch : Patch)
| logApp_debug (m : debug_message)
| logApp_error (e : error) (element_id : string) (manager : string).

(** The imported functions and configuration the manager relies on.  None of
    them is defined in the source file. *)
Record Collaborators : Type := {
  Json : Type;
  QueryOptions : Type;
  Moment : Type;
  JSON_parse : string -> Exc Json;
  convertFiltersToQueryOptions : option Json -> Moment -> Exc QueryOptions;
  (* elPaginate(context, RETENTION_MANAGER_USER, READ_STIX_INDICES, { ...queryOptions, first }) *)
  elPaginate : list event -> QueryOptions -> Z -> Exc Connection;
  (* paginatedForPathWithEnrichment(context, RETENTION_MANAGER_USER, path, undefined, { first, notModifiedSince }) *)
  paginatedForPathWithEnrichment : list event -> string -> Z -> string -> Exc Connection;
  deleteElementById : list event -> string -> option string -> Exc unit;
  deleteFile : list event -> string -> Exc unit;
  patchAttribute : list event -> string -> string -> Patch -> Exc unit;
  findRetentionRulesToExecute : list event -> Exc (list RetentionRule);
  (* lock.signal.aborted *)
  signal_aborted : list event -> option error;
  utcDate : list event -> Moment;
  subtract : Moment -> nat -> string -> Moment;
  toISOString : Moment -> string;
  (* moment.duration(utcDate(up).diff(utcDate())).humanize() *)
  humanDuration_of : string -> Moment -> string;
  now : list event -> string;
  (* conf.get('retention_manager:batch_size'): a number, of either sign, or
     nothing *)
  conf_batch_size : option Z;
  ENTITY_TYPE_RETENTION_RULE : string
}.

Section Manager.
Variable C : Collaborators.

(** [conf.get('retention_manager:batch_size') || 100]: a missing setting
    and the setting 0 are falsy, every other number is kept as it is. *)
Definition RETENTION_BATCH_SIZE : Z :=
  match conf_batch_size C with
  | Some 0%Z => 100%Z
  | Some n => n
  | None => 100%Z
  end.

Definition scope_error (A : Type) (scope : string) : M event A :=
  throw (JsError ("[Retention manager] Scope " ++ scope ++ " not existing for Retention Rule.")).

Definition deleteElement (scope nodeId : string) (nodeEntityType : option string)
  : M event unit :=
  if scope =? "knowledge" then
    call (deleteElementById_call nodeId nodeEntityType)
         (fun tr => deleteElementById C tr nodeId nodeEntityType)
  else if (scope =? "file") || (scope =? "workbench") then
    call (deleteFile_call nodeId) (fun tr => deleteFile C tr nodeId)
  else scope_error unit scope.

(** [work?.status === 'complete'] *)
Definition work_complete (work : option Work) : bool :=
  match work with
  | Some {| status := Some s |} => s =? "complete"
  | _ => false
  end.

(** The predicate of [result.edges.filter]:
    [e.node.uploadStatus === 'complete'
     && (e.node.works ?? []).every((work) => work?.status === 'complete')] *)
Definition not_in_flight (e : Edge) : bool :=
  match uploadStatus (node e) with
  | Some s => s =? "complete"
  | None => false
  end
  && forallb work_complete
       (match works (node e) with Some ws => ws | None => [] end).

(** The first [if ... else if ... else] of [getElementsToDelete]: the page
    asked of the scope query adapter, before any filtering. *)
Definition fetch_page (scope : string) (before : Moment C)
    (filters : option string) : M event Connection :=
  if scope =? "knowledge" then
    jsonFilters <-
      (match filters with
       | Some f => if truthy (Some f)
                   then j <- query (fun _ => JSON_parse C f) ;; ret (Some j)
                   else ret None
       | None => ret None
       end) ;;
    queryOptions <- query (fun _ => convertFiltersToQueryOptions C jsonFilters before) ;;
    query (fun tr => elPaginate C tr queryOptions RETENTION_BATCH_SIZE)
  else if scope =? "file" then
    query (fun tr => paginatedForPathWithEnrichment C tr "import/global"
                       RETENTION_BATCH_SIZE (toISOString C before))
  else if scope =? "workbench" then
    query (fun tr => paginatedForPathWithEnrichment C tr "import/pending"
                       RETENTION_BATCH_SIZE (toISOString C before))
  else scope_error Connection scope.

Definition getElementsToDelete (scope : string) (before : Moment C)
    (filters : option string) : M event Connection :=
  result <- fetch_page scope before filters ;;
  if (scope =? "file") || (scope =? "knowledge") then
    (* don't delete files with ongoing works or incomplete status *)
    ret {| edges := filter not_in_flight (edges result); pageInfo := pageInfo result |}
  else ret result.

(** The body of the [for] loop of [executeProcessing], for one element. *)
Definition process_element (scope : string) (e : Edge) : M event unit :=
  let n := node e in
  humanDuration <- observe (fun tr => humanDuration_of C (updated_at n) (utcDate C tr)) ;;
  try_catch
    (deleteElement scope (if scope =? "knowledge" then internal_id n else id n)
                   (entity_type n) ;;;
     emit (logApp_debug (Deleting_after (id n) humanDuration)))
    (fun e => emit (logApp_error e (id n) "RETENTION_MANAGER")).

(** [utcDate().subtract(maxNumber, unit ?? 'days')] *)
Definition cutoff (retentionRule : RetentionRule) (tr : list event) : Moment C :=
  subtract C (utcDate C tr) (max_retention retentionRule)
    (match retention_unit retentionRule with Some u => u | None => "days" end).

Definition executeProcessing (retentionRule : RetentionRule) : M event unit :=
  emit (logApp_debug (Executing_rule (name retentionRule))) ;;;
  before <- observe (cutoff retentionRule) ;;
  result <- getElementsToDelete (scope retentionRule) before (filters retentionRule) ;;
  let remainingDeletions := globalCount (pageInfo result) in
  let elements := edges result in
  emit (logApp_debug (Clearing_elements (length elements))) ;;;
  for_each (process_element (scope retentionRule)) elements ;;;
  (* Patch the last execution of the rule *)
  patch <- observe (fun tr =>
             {| last_execution_date := now C tr;
                remaining_count := remainingDeletions;
                last_deleted_count := length elements |}) ;;
  call (patchAttribute_call (rule_id retentionRule) (ENTITY_TYPE_RETENTION_RULE C) patch)
       (fun tr => patchAttribute C tr (rule_id retentionRule)
                    (ENTITY_TYPE_RETENTION_RULE C) patch).

Definition retentionHandler : M event unit :=
  retentionRules <- query (findRetentionRulesToExecute C) ;;
  emit (logApp_debug (Execution_for_rules (length retentionRules))) ;;;
  for_each
    (fun retentionRule =>
       (* lock.signal.throwIfAborted() *)
       query (fun tr => match signal_aborted C tr with
                        | Some reason => inl reason
                        | None => inr tt
                        end) ;;;
       executeProcessing retentionRule)
    retentionRules.

End Manager.

(** *** Reading a trace *)

(** The ids for which the manager logged a completed deletion: the
    [Deleting_after] message is only reached when [deleteElement] returned. *)
Fixpoint deleted_ids (tr : list event) : list string :=
  match tr with
  | [] => []
  | logApp_debug (Deleting_after i _) :: tr' => i :: deleted_ids tr'
  | _ :: tr' => deleted_ids tr'
  end.

(** The patches sent to [patchAttribute], in order. *)
Fixpoint patches (tr : list event) : list Patch :=
  match tr with
  | [] => []
  | patchAttribute_call _ _ p :: tr' => p :: patches tr'
  | _ :: tr' => patches tr'
  end.

(** The deletion requests sent to the knowledge store or the file storage. *)
Definition is_delete_call (ev : event) : bool :=
  match ev with
  | deleteElementById_call _ _ | deleteFile_call _ => true
  | _ => false
  end.

(** The request [deleteElement] sends for an element of a supported scope:
    [scope === 'knowledge' ? node.internal_id : node.id], with
    [node.entity_type]. *)
Definition delete_call (scope : string) (e : Edge) : event :=
  if scope =? "knowledge"
  then deleteElementById_call (internal_id (node e)) (entity_type (node e))
  else deleteFile_call (id (node e)).

(** What the deletion collaborator of a supported scope answers for an
    element, after the history [tr]. *)
Definition deletion_answer (C : Collaborators) (scope : string)
    (tr : list event) (e : Edge) : Exc unit :=
  if scope =? "knowledge"
  then deleteElementById C tr (internal_id (node e)) (entity_type (node e))
  else deleteFile C tr (id (node e)).

Definition supported_scope (scope : string) : bool :=
  (scope =? "knowledge") || (scope =? "file") || (scope =? "workbench").

(** One turn of the deletion loop, seen from outside: the request, then
    either the debug line of a completed deletion or the error line that
    carries what was thrown, the element id and the manager name. *)
Inductive processed (C : Collaborators) (scope : string) (tr : list event)
    (e : Edge) : list event -> Prop :=
| processed_deleted :
    deletion_answer C scope tr e = inr tt ->
    processed C scope tr e
      [delete_call scope e;
       logApp_debug (Deleting_after (id (node e))
                       (humanDuration_of C (updated_at (node e)) (utcDate C tr)))]
| processed_failed : forall err,
    deletion_answer C scope tr e = inl err ->
    processed C scope tr e
      [delete_call scope e; logApp_error err (id (node e)) "RETENTION_MANAGER"].

(** The whole loop: every element of the batch gets its turn, in order,
    whatever happened to the ones before it. *)
Inductive batch_run (C : Collaborators) (scope : string)
  : list event -> list Edge -> list event -> Prop :=
| batch_done : forall tr, batch_run C scope tr [] []
| batch_turn : forall tr e es turn rest,
    processed C scope tr e turn ->
    batch_run C scope (tr ++ turn) es rest ->
    batch_run C scope tr (e :: es) (turn ++ rest).

(** The elements of a batch whose deletion returned, given the answers of
    the collaborator along the run. *)
Fixpoint deleted_count (C : Collaborators) (scope : string) (tr : list event)
    (es : list Edge) : nat :=
  match es with
  | [] => 0
  | e :: es' =>
      match deletion_answer C scope tr e with
      | inr _ =>
          S (deleted_count C scope
               (tr ++ [delete_call scope e;
                       logApp_debug (Deleting_after (id (node e))
                         (humanDuration_of C (updated_at (node e)) (utcDate C tr)))])
               es')
      | inl err =>
          deleted_count C scope
            (tr ++ [delete_call scope e;
                    logApp_error err (id (node e)) "RETENTION_MANAGER"])
            es'
      end
  end.

(** The page the adapter returns to a run of [executeProcessing] that starts
    after the history [tr], and the history at that moment. *)
Definition started (rule : RetentionRule) (tr : list event) : list event :=
  tr ++ [logApp_debug (Executing_rule (name rule))].

Definition fetched (C : Collaborators) (rule : RetentionRule) (tr : list event)
  : Exc Connection :=
  fst (fetch_page C (scope rule) (cutoff C rule (started rule tr)) (filters rule)
         (started rule tr)).

(** The batch the loop of [executeProcessing] iterates over, for a page. *)
Definition batch_of (scope : string) (page : Connection) : list Edge :=
  if (scope =? "file") || (scope =? "knowledge")
  then filter not_in_flight (edges page)
  else edges page.

(** The element is complete and so is every work attached to it. *)
Definition settled (e : Edge) : Prop :=
  uploadStatus (node e) = Some "complete"
  /\ forall w, In w (match works (node e) with Some ws => ws | None => [] end) ->
               w = Some {| status := Some "complete" |}.

(** Every deletion request of a run of the rule targets a settled element
    of the page the adapter returned to that run. *)
Definition in_flight_protected (C : Collaborators) (rule : RetentionRule) : Prop :=
  forall (tr : list event) (page : Connection),
    fetched C rule tr = inr page ->
    exists evs,
      snd (executeProcessing C rule tr) = tr ++ evs
      /\ forall ev, In ev evs -> is_delete_call ev = true ->
           exists e, In e (edges page) /\ settled e
                     /\ ev = delete_call (scope rule) e.

(** The ids of the rules a trace asks [patchAttribute] to patch, in order. *)
Fixpoint patched_rules (tr : list event) : list string :=
  match tr with
  | [] => []
  | patchAttribute_call i _ _ :: tr' => i :: patched_rules tr'
  | _ :: tr' => patched_rules tr'
  end.

(** The same rule with other filters. *)
Definition with_filters (rule : RetentionRule) (f : option string) : RetentionRule :=
  {| rule_id := rule_id rule;
     name := name rule;
     max_retention := max_retention rule;
     retention_unit := retention_unit rule;
     filters := f;
     scope := scope rule |}.

(** The body of the [for] loop of [retentionHandler], for one rule:
    [lock.signal.throwIfAborted()], then [executeProcessing]. *)
Definition rule_turn (C : Collaborators) (retentionRule : RetentionRule)
  : M event unit :=
  query (fun tr => match signal_aborted C tr with
                   | Some reason => inl reason
                   | None => inr tt
                   end) ;;;
  executeProcessing C retentionRule.

(** The history when the loop of [retentionHandler] starts. *)
Definition handler_started (rules : list RetentionRule) (tr : list event)
  : list event :=
  tr ++ [logApp_debug (Execution_for_rules (length rules))].


End RetentionManager.

(** ** Background tasks: authorization gate and task record factory *)

(** Sequencing of computations that may throw but touch nothing. *)
Definition exc_bind (A B : Type) (m : Exc A) (k : A -> Exc B) : Exc B :=
  match m with
  | inr a => k a
  | inl e => inl e
  end.

Notation "x <~ m ;; k" := (exc_bind m (fun x => k))
  (at level 61, m at next level, right associativity).

(** [if (!ok) { throw e }] *)
Definition ensure (ok : bool) (e : error) : Exc unit :=
  if ok then inr tt else inl e.

Notation "'ensure!' ok 'else_throw' e ;; k" := (exc_bind (ensure ok e) (fun _ => k))
  (at level 61, ok at next level, e at next level, right associativity).

Module BackgroundTask.

Definition TASK_TYPE_QUERY : string := "QUERY".
Definition TASK_TYPE_RULE : string := "RULE".
Definition TASK_TYPE_LIST : string := "LIST".

Definition ACTION_TYPE_DELETE : string := "DELETE".
Definition ACTION_TYPE_RESTORE : string := "RESTORE".
Definition ACTION_TYPE_COMPLETE_DELETE : string := "COMPLETE_DELETE".
Definition ACTION_TYPE_SHARE : string := "SHARE".
Definition ACTION_TYPE_UNSHARE : string := "UNSHARE".
Definition ACTION_TYPE_SHARE_MULTIPLE : string := "SHARE_MULTIPLE".
Definition ACTION_TYPE_UNSHARE_MULTIPLE : string := "UNSHARE_MULTIPLE".

(** The values of the generated enum [BackgroundTaskScope]; the same values
    are the [case] labels of [authorizedAuthoritiesForTask]. *)
Definition Scope_Settings : string := "SETTINGS".
Definition Scope_Knowledge : string := "KNOWLEDGE".
Definition Scope_User : string := "USER".
Definition Scope_Import : string := "IMPORT".

Definition isDeleteRestrictedAction (a : string) : bool :=
  (a =? ACTION_TYPE_DELETE) || (a =? ACTION_TYPE_RESTORE)
  || (a =? ACTION_TYPE_COMPLETE_DELETE).

(** A filter key as it comes out of [JSON.parse]: the code calls
    [f.key.includes('entity_type')] (defined on strings and on arrays) and
    compares [f.key === 'user_id'] (true of a string only). *)
Inductive FilterKey : Type :=
| key_string (s : string)
| key_array (ks : list string).

Record Filter : Type := { key : FilterKey; values : list string }.

Inductive FilterGroup : Type :=
| Build_FilterGroup (mode : string) (filters : option (list Filter))
                    (filterGroups : list FilterGroup).

(** [filterGroup.filters] *)
Definition fg_filters (g : FilterGroup) : option (list Filter) :=
  match g with Build_FilterGroup _ fs _ => fs end.

(** [String.prototype.includes] *)
Definition string_includes (s sub : string) : bool :=
  match String.index 0 sub s with
  | Some _ => true
  | None => false
  end.

(** [f.key.includes(k)] *)
Definition key_includes (k : FilterKey) (x : string) : bool :=
  match k with
  | key_string s => string_includes s x
  | key_array ks => existsb (String.eqb x) ks
  end.

(** [f.key === k] *)
Definition key_is (k : FilterKey) (x : string) : bool :=
  match k with
  | key_string s => s =? x
  | key_array _ => false
  end.

Record User : Type := { id : string; internal_id : string }.

(** What [internalLoadById] and [storeLoadById] resolve an id to, reduced to
    the fields the gate reads. *)
Record StoreObject : Type := {
  entity_type : string;
  parent_types : list string;
  user_id : string
}.

(** The task-creation input. *)
Record Input : Type := {
  actions : list string;
  filters : option string;
  ids : list string;
  scope : option string
}.

Record Member : Type := { member_id : string; access_right : string }.

(** The object built by [createDefaultTask]; the three last fields are only
    present when a scope was given. *)
Record Task : Type := {
  task_id : string;
  task_internal_id : string;
  standard_id : string;
  task_entity_type : string;
  initiator_id : string;
  created_at : string;
  completed : bool;
  task_type : string;
  last_execution_date : option string;
  task_position : option string;
  task_processed_number : nat;
  task_expected_number : nat;
  errors : list string;
  task_scope : option string;
  authorized_members : option (list Member);
  authorized_authorities : option (list string)
}.

(** [{ ...task, actions, task_ids: ids }] *)
Record ListTask : Type := {
  task : Task;
  task_actions : list string;
  task_ids : list string
}.

Inductive event : Type :=
| publishUserAction_call (user : User)
    (event_type event_scope event_access message : string)
    (context_entity_type : string) (context_input : ListTask)
| elIndex_call (index : string) (document : ListTask).

(** The imported functions and constants of the background-task domain. *)
Record Collaborators : Type := {
  JSON_parse : string -> Exc (option FilterGroup);
  isFilterGroupNotEmpty : option FilterGroup -> bool;
  isUserHasCapability : User -> string -> bool;
  isKnowledge : string -> bool;
  getParentTypes : string -> list string;
  (* internalLoadById(context, user, id) *)
  internalLoadById : User -> string -> option StoreObject;
  (* storeLoadById(context, user, id, type) *)
  storeLoadById : User -> string -> string -> option StoreObject;
  generateInternalId : list event -> string;
  generateStandardId : string -> Input -> string;
  now : list event -> string;
  publishUserAction : list event -> ListTask -> Exc unit;
  elIndex : list event -> string -> ListTask -> Exc unit;
  SETTINGS_SETLABELS : string;
  SETTINGS_SET_ACCESSES : string;
  KNOWLEDGE_UPDATE : string;
  KNOWLEDGE_DELETE : string;
  KNOWLEDGE_KNUPDATE : string;
  KNOWLEDGE_KNASKIMPORT : string;
  MEMBER_ACCESS_RIGHT_ADMIN : string;
  ENTITY_TYPE_BACKGROUND_TASK : string;
  ENTITY_TYPE_NOTIFICATION : string;
  ENTITY_TYPE_VOCABULARY : string;
  ENTITY_TYPE_DELETE_OPERATION : string;
  INDEX_INTERNAL_OBJECTS : string
}.

(** Ramda's [uniq]: the first occurrence of every value, in order. *)
Fixpoint uniq_from (seen l : list string) : list string :=
  match l with
  | [] => []
  | x :: l' =>
      if existsb (String.eqb x) seen then uniq_from seen l'
      else x :: uniq_from (x :: seen) l'
  end.

Definition uniq (l : list string) : list string := uniq_from [] l.

(** [objects.includes(undefined)] *)
Definition includes_undefined (A : Type) (objects : list (option A)) : bool :=
  existsb (fun o => match o with None => true | Some _ => false end) objects.

(** The objects of a list without [undefined]. *)
Fixpoint resolved (A : Type) (objects : list (option A)) : list A :=
  match objects with
  | [] => []
  | Some o :: os => o :: resolved os
  | None :: os => resolved os
  end.

Section Gate.
Variable C : Collaborators.

(** [parentTypes && parentTypes.flat().every((type) => isKnowledge(type))];
    an array is always truthy. *)
Definition areParentTypesKnowledge (parentTypes : list (list string)) : bool :=
  forallb (isKnowledge C) (concat parentTypes).

(** The constant [filters] of [checkActionValidity]. *)
Definition baseFilters (input : Input) : Exc (list Filter) :=
  baseFilterObject <~
    (match filters input with
     | Some baseFilterString =>
         if truthy (Some baseFilterString) then JSON_parse C baseFilterString
         else inr None
     | None => inr None
     end) ;;
  inr (if isFilterGroupNotEmpty C baseFilterObject
       then match baseFilterObject with
            | Some g => match fg_filters g with Some fs => fs | None => [] end
            | None => []
            end
       else []).

Definition typeFiltersOf (fs : list Filter) : list Filter :=
  filter (fun f => key_includes (key f) "entity_type") fs.

Definition typeFiltersValuesOf (fs : list Filter) : list string :=
  flat_map values (typeFiltersOf fs).

Definition not_knowledge_message : option string :=
  Some "The targeted ids are not knowledge.".
Definition not_notifications_message : option string :=
  Some "The targeted ids are not notifications.".
Definition bad_type_message : string :=
  "A background task should be of type query or list.".

(** check a user has the right to create a list or a query background task *)
Definition checkActionValidity (user : User) (input : Input)
    (scope : option string) (taskType : string) : Exc unit :=
  filters <~ baseFilters input ;;
  let typeFilters := typeFiltersOf filters in
  let typeFiltersValues := typeFiltersValuesOf filters in
  let scope_is s := match scope with Some s' => s' =? s | None => false end in
  if scope_is Scope_Settings then
    (* 01. Background task of scope Settings *)
    ensure (isUserHasCapability C user (SETTINGS_SETLABELS C)) (ForbiddenAccess None)
  else if scope_is Scope_Knowledge then
    (* 02. Background task of scope Knowledge *)
    ensure! isUserHasCapability C user (KNOWLEDGE_UPDATE C)
      else_throw ForbiddenAccess None ;;
    let askForDeletionRelatedAction :=
      Nat.ltb 0 (length (filter isDeleteRestrictedAction (actions input))) in
    ensure! (negb askForDeletionRelatedAction
             || isUserHasCapability C user (KNOWLEDGE_DELETE C))
      else_throw ForbiddenAccess None ;;
    if taskType =? TASK_TYPE_QUERY then
      let deleteOperationTypes :=
        forallb (fun type => type =? ENTITY_TYPE_DELETE_OPERATION C) typeFiltersValues in
      let parentTypes := map (getParentTypes C) typeFiltersValues in
      let isNotKnowledge :=
        (negb deleteOperationTypes && negb (areParentTypesKnowledge parentTypes))
        || existsb (fun type => type =? ENTITY_TYPE_VOCABULARY C) typeFiltersValues in
      ensure (negb isNotKnowledge) (ForbiddenAccess not_knowledge_message)
    else if taskType =? TASK_TYPE_LIST then
      let objects := map (internalLoadById C user) (ids input) in
      let deleteOperationTypes :=
        forallb (fun o => match o with
                          | Some o' => entity_type o' =? ENTITY_TYPE_DELETE_OPERATION C
                          | None => false
                          end) objects in
      let isNotKnowledge :=
        if includes_undefined objects then true
        else
          (negb deleteOperationTypes
           && negb (areParentTypesKnowledge (map parent_types (resolved objects))))
          || existsb (fun o => entity_type o =? ENTITY_TYPE_VOCABULARY C)
                     (resolved objects) in
      ensure (negb isNotKnowledge) (ForbiddenAccess not_knowledge_message)
    else inl (UnsupportedError bad_type_message)
  else if scope_is Scope_User then
    (* 03. Background task of scope User (i.e. on Notifications) *)
    if taskType =? TASK_TYPE_QUERY then
      let isNotifications :=
        match typeFilters with
        | [f] => match values f with
                 | [v] => v =? "Notification"
                 | _ => false
                 end
        | _ => false
        end in
      ensure! isNotifications else_throw ForbiddenAccess not_notifications_message ;;
      let userFilters := filter (fun f => key_is (key f) "user_id") filters in
      let isUserData :=
        match userFilters with
        | f :: _ => match values f with
                    | [v] => v =? id user
                    | _ => false
                    end
        | [] => false
        end in
      let isAuthorized :=
        isUserHasCapability C user (SETTINGS_SET_ACCESSES C) || isUserData in
      ensure isAuthorized (ForbiddenAccess None)
    else if taskType =? TASK_TYPE_LIST then
      let objects :=
        map (fun i => storeLoadById C user i (ENTITY_TYPE_NOTIFICATION C)) (ids input) in
      let isNotNotifications := includes_undefined objects in
      ensure! negb isNotNotifications
        else_throw ForbiddenAccess not_notifications_message ;;
      let notificationsUsers := uniq (map user_id (resolved objects)) in
      let isUserData :=
        (length notificationsUsers =? 1)%nat
        && existsb (String.eqb (id user)) notificationsUsers in
      let isAuthorized :=
        isUserHasCapability C user (SETTINGS_SET_ACCESSES C) || isUserData in
      ensure isAuthorized (ForbiddenAccess None)
    else inl (UnsupportedError bad_type_message)
  else if scope_is Scope_Import then
    (* 04. Background task of scope Import *)
    ensure! isUserHasCapability C user (KNOWLEDGE_KNASKIMPORT C)
      else_throw ForbiddenAccess None ;;
    (* The only operation authorized on these scope is Deletion *)
    if forallb (fun a => a =? ACTION_TYPE_DELETE) (actions input) then
      inl (UnsupportedError "Background tasks of scope Import can only be deletions.")
    else inr tt
  else
    (* Background task with an invalid scope *)
    inl (UnsupportedError
           "A background task should be of scope: SETTINGS, KNOWLEDGE, USER, IMPORT.").

(** The capabilities the scope Knowledge requires of a principal (2.1 and
    2.2 of [checkActionValidity]): to update knowledge, and to delete it
    when a deletion-related action is asked for. *)
Definition knowledge_capabilities (user : User) (input : Input) : Prop :=
  isUserHasCapability C user (KNOWLEDGE_UPDATE C) = true
  /\ (existsb isDeleteRestrictedAction (actions input) = true ->
      isUserHasCapability C user (KNOWLEDGE_DELETE C) = true).

Definition authorizedAuthoritiesForTask (scope : string) : list string :=
  if scope =? "SETTINGS" then [SETTINGS_SETLABELS C]
  else if scope =? "KNOWLEDGE" then [KNOWLEDGE_KNUPDATE C]
  else if scope =? "USER" then [SETTINGS_SET_ACCESSES C]
  else if scope =? "IMPORT" then [KNOWLEDGE_KNASKIMPORT C]
  else [].

Definition authorizedMembersForTask (user : User) (scope : string) : list Member :=
  if (scope =? "SETTINGS") || (scope =? "KNOWLEDGE") || (scope =? "USER")
  then [{| member_id := id user; access_right := MEMBER_ACCESS_RIGHT_ADMIN C |}]
  else [].

Definition createDefaultTask (user : User) (input : Input) (taskType : string)
    (taskExpectedNumber : nat) (scope : option string) : M event Task :=
  taskId <- observe (generateInternalId C) ;;
  created <- observe (now C) ;;
  let with_rights := truthy scope in
  let s := match scope with Some s => s | None => "" end in
  ret {| task_id := taskId;
         task_internal_id := taskId;
         standard_id := generateStandardId C (ENTITY_TYPE_BACKGROUND_TASK C) input;
         task_entity_type := ENTITY_TYPE_BACKGROUND_TASK C;
         initiator_id := internal_id user;
         created_at := created;
         completed := false;
         task_type := taskType;
         last_execution_date := None;
         task_position := None;
         task_processed_number := 0;
         task_expected_number := taskExpectedNumber;
         errors := [];
         task_scope := if with_rights then scope else None;
         authorized_members :=
           if with_rights then Some (authorizedMembersForTask user s) else None;
         authorized_authorities :=
           if with_rights then Some (authorizedAuthoritiesForTask s) else None |}.

Definition creation_audit (user : User) (listTask : ListTask) : event :=
  publishUserAction_call user "mutation" "create" "extended"
    "creates `background task`" (ENTITY_TYPE_BACKGROUND_TASK C) listTask.

Definition createListTask (user : User) (input : Input) : M event ListTask :=
  query (fun _ => checkActionValidity user input (scope input) TASK_TYPE_LIST) ;;;
  task <- createDefaultTask user input TASK_TYPE_LIST (length (ids input)) (scope input) ;;
  let listTask :=
    {| task := task; task_actions := actions input; task_ids := ids input |} in
  call (creation_audit user listTask) (fun tr => publishUserAction C tr listTask) ;;;
  call (elIndex_call (INDEX_INTERNAL_OBJECTS C) listTask)
       (fun tr => elIndex C tr (INDEX_INTERNAL_OBJECTS C) listTask) ;;;
  ret listTask.

End Gate.


End BackgroundTask.

(** ** Concrete stores and requests *)

Module Fixtures.

Module R.
Import RetentionManager.

Definition file_node (i : string) (up : option string)
    (ws : option (list (option Work))) : Edge :=
  {| node := {| id := i;
                internal_id := i ++ "--internal";
                entity_type := None;
                updated_at := "2024-01-01T00:00:00.000Z";
                uploadStatus := up;
                works := ws |} |}.

(** Two files of [import/global], both complete. *)
Definition global_page : Connection :=
  {| edges := [file_node "old.csv" (Some "complete") None;
               file_node "locked.pdf" (Some "complete")
                         (Some [Some {| status := Some "complete" |}])];
     pageInfo := {| endCursor := ""; hasNextPage := false; globalCount := 2 |} |}.

(** One workbench of [import/pending], still uploading, with a work in
    progress. *)
Definition pending_page : Connection :=
  {| edges := [file_node "draft.json" (Some "progress")
                         (Some [Some {| status := Some "progress" |}])];
     pageInfo := {| endCursor := ""; hasNextPage := false; globalCount := 1 |} |}.

Definition knowledge_page : Connection :=
  {| edges := [file_node "report--1" None None];
     pageInfo := {| endCursor := ""; hasNextPage := false; globalCount := 150 |} |}.

(** A store whose file storage refuses to delete [locked.pdf]. *)
Definition store : Collaborators :=
  {| Json := string;
     QueryOptions := string;
     Moment := nat;
     JSON_parse := fun s => inr s;
     convertFiltersToQueryOptions := fun _ _ => inr "";
     elPaginate := fun _ _ _ => inr knowledge_page;
     paginatedForPathWithEnrichment := fun _ path _ _ =>
       if path =? "import/global" then inr global_page else inr pending_page;
     deleteElementById := fun _ _ _ => inr tt;
     deleteFile := fun _ nodeId =>
       if nodeId =? "locked.pdf" then inl (ExternalError "file is locked") else inr tt;
     patchAttribute := fun _ _ _ _ => inr tt;
     findRetentionRulesToExecute := fun _ => inr [];
     signal_aborted := fun _ => None;
     utcDate := fun _ => 1000;
     subtract := fun m n _ => m - n;
     toISOString := fun _ => "2024-01-02T00:00:00.000Z";
     humanDuration_of := fun _ _ => "a month";
     now := fun _ => "2024-02-01T00:00:00.000Z";
     conf_batch_size := None;
     ENTITY_TYPE_RETENTION_RULE := "RetentionRule" |}.

Definition rule_for (s : string) : RetentionRule :=
  {| rule_id := "rule-" ++ s;
     name := s ++ " cleanup";
     max_retention := 30;
     retention_unit := Some "days";
     filters := None;
     scope := s |}.

(** The same store with a file storage that never refuses, a list of two
    rules to execute, and a lock that is lost once the rule [rule-file] has
    been patched. *)
Definition scheduled_store : Collaborators :=
  {| Json := string;
     QueryOptions := string;
     Moment := nat;
     JSON_parse := fun s => inr s;
     convertFiltersToQueryOptions := fun _ _ => inr "";
     elPaginate := fun _ _ _ => inr knowledge_page;
     paginatedForPathWithEnrichment := fun _ path _ _ =>
       if path =? "import/global" then inr global_page else inr pending_page;
     deleteElementById := fun _ _ _ => inr tt;
     deleteFile := fun _ _ => inr tt;
     patchAttribute := fun _ _ _ _ => inr tt;
     findRetentionRulesToExecute := fun _ => inr [rule_for "file"; rule_for "workbench"];
     signal_aborted := fun tr =>
       if existsb (String.eqb "rule-file") (patched_rules tr)
       then Some (ExternalError "AbortError") else None;
     utcDate := fun _ => 1000;
     subtract := fun m n _ => m - n;
     toISOString := fun _ => "2024-01-02T00:00:00.000Z";
     humanDuration_of := fun _ _ => "a month";
     now := fun _ => "2024-02-01T00:00:00.000Z";
     conf_batch_size := Some 0%Z;
     ENTITY_TYPE_RETENTION_RULE := "RetentionRule" |}.

(** A store that serves the page of [import/pending] for every path. *)
Definition mirror_store : Collaborators :=
  {| Json := string;
     QueryOptions := string;
     Moment := nat;
     JSON_parse := fun s => inr s;
     convertFiltersToQueryOptions := fun _ _ => inr "";
     elPaginate := fun _ _ _ => inr knowledge_page;
     paginatedForPathWithEnrichment := fun _ _ _ _ => inr pending_page;
     deleteElementById := fun _ _ _ => inr tt;
     deleteFile := fun _ _ => inr tt;
     patchAttribute := fun _ _ _ _ => inr tt;
     findRetentionRulesToExecute := fun _ => inr [];
     signal_aborted := fun _ => None;
     utcDate := fun _ => 1000;
     subtract := fun m n _ => m - n;
     toISOString := fun _ => "2024-01-02T00:00:00.000Z";
     humanDuration_of := fun _ _ => "a month";
     now := fun _ => "2024-02-01T00:00:00.000Z";
     conf_batch_size := None;
     ENTITY_TYPE_RETENTION_RULE := "RetentionRule" |}.

(** A store whose knowledge index cannot be reached, with a lock that is
    never lost and two rules to execute. *)
Definition unreachable_store : Collaborators :=
  {| Json := string;
     QueryOptions := string;
     Moment := nat;
     JSON_parse := fun s => inr s;
     convertFiltersToQueryOptions := fun _ _ => inr "";
     elPaginate := fun _ _ _ => inl (ExternalError "index unreachable");
     paginatedForPathWithEnrichment := fun _ path _ _ =>
       if path =? "import/global" then inr global_page else inr pending_page;
     deleteElementById := fun _ _ _ => inr tt;
     deleteFile := fun _ _ => inr tt;
     patchAttribute := fun _ _ _ _ => inr tt;
     findRetentionRulesToExecute := fun _ => inr [rule_for "knowledge"; rule_for "file"];
     signal_aborted := fun _ => None;
     utcDate := fun _ => 1000;
     subtract := fun m n _ => m - n;
     toISOString := fun _ => "2024-01-02T00:00:00.000Z";
     humanDuration_of := fun _ _ => "a month";
     now := fun _ => "2024-02-01T00:00:00.000Z";
     conf_batch_size := Some 50%Z;
     ENTITY_TYPE_RETENTION_RULE := "RetentionRule" |}.

End R.

Module T.
Import BackgroundTask.

Definition admin : User := {| id := "admin"; internal_id := "admin--internal" |}.
Definition alice : User := {| id := "alice"; internal_id := "alice--internal" |}.

Definition group_of (k v : string) : FilterGroup :=
  Build_FilterGroup "and" (Some [{| key := key_array [k]; values := [v] |}]) [].

(** A platform on which [admin] holds every capability and [alice] every
    capability but the one that manages accesses; [n1] is a notification of
    [alice], [n2] a notification of another user. *)
Definition platform : Collaborators :=
  {| JSON_parse := fun s =>
       if s =? "entity_type:Vocabulary" then inr (Some (group_of "entity_type" "Vocabulary"))
       else if s =? "entity_type:Report" then inr (Some (group_of "entity_type" "Report"))
       else if s =? "name:x" then inr (Some (group_of "name" "x"))
       else inl (ExternalError "SyntaxError");
     isFilterGroupNotEmpty := fun g =>
       match g with
       | Some (Build_FilterGroup _ (Some (_ :: _)) _) => true
       | Some (Build_FilterGroup _ _ (_ :: _)) => true
       | _ => false
       end;
     isUserHasCapability := fun u cap =>
       (id u =? "admin") || ((id u =? "alice") && negb (cap =? "SETTINGS_SETACCESSES"));
     isKnowledge := fun t => t =? "Stix-Core-Object";
     getParentTypes := fun t => if t =? "Report" then ["Stix-Core-Object"] else ["Basic-Object"];
     internalLoadById := fun _ i =>
       if i =? "report--1"
       then Some {| entity_type := "Report"; parent_types := ["Stix-Core-Object"];
                    user_id := "" |}
       else None;
     storeLoadById := fun _ i t =>
       if negb (t =? "Notification") then None
       else if i =? "n1"
       then Some {| entity_type := "Notification"; parent_types := []; user_id := "alice" |}
       else if i =? "n2"
       then Some {| entity_type := "Notification"; parent_types := []; user_id := "bob" |}
       else None;
     generateInternalId := fun _ => "task--1";
     generateStandardId := fun _ _ => "background-task--1";
     now := fun _ => "2024-02-01T00:00:00.000Z";
     publishUserAction := fun _ _ => inr tt;
     elIndex := fun _ _ _ => inr tt;
     SETTINGS_SETLABELS := "SETTINGS_SETLABELS";
     SETTINGS_SET_ACCESSES := "SETTINGS_SETACCESSES";
     KNOWLEDGE_UPDATE := "KNOWLEDGE_KNUPDATE";
     KNOWLEDGE_DELETE := "KNOWLEDGE_KNUPDATE_KNDELETE";
     KNOWLEDGE_KNUPDATE := "KNOWLEDGE_KNUPDATE";
     KNOWLEDGE_KNASKIMPORT := "KNOWLEDGE_KNASKIMPORT";
     MEMBER_ACCESS_RIGHT_ADMIN := "admin";
     ENTITY_TYPE_BACKGROUND_TASK := "BackgroundTask";
     ENTITY_TYPE_NOTIFICATION := "Notification";
     ENTITY_TYPE_VOCABULARY := "Vocabulary";
     ENTITY_TYPE_DELETE_OPERATION := "DeleteOperation";
     INDEX_INTERNAL_OBJECTS := "opencti_internal_objects" |}.

Definition request (s : string) (acts : list string) (fs : option string)
    (targets : list string) : Input :=
  {| actions := acts; filters := fs; ids := targets; scope := Some s |}.

Definition guest : User := {| id := "guest"; internal_id := "guest--internal" |}.

(** The same platform with other answers from the audit listener and from
    the index. *)
Definition with_listeners (P : Collaborators)
    (publish : list event -> ListTask -> Exc unit)
    (index : list event -> string -> ListTask -> Exc unit) : Collaborators :=
  {| JSON_parse := JSON_parse P;
     isFilterGroupNotEmpty := isFilterGroupNotEmpty P;
     isUserHasCapability := isUserHasCapability P;
     isKnowledge := isKnowledge P;
     getParentTypes := getParentTypes P;
     internalLoadById := internalLoadById P;
     storeLoadById := storeLoadById P;
     generateInternalId := generateInternalId P;
     generateStandardId := generateStandardId P;
     now := now P;
     publishUserAction := publish;
     elIndex := index;
     SETTINGS_SETLABELS := SETTINGS_SETLABELS P;
     SETTINGS_SET_ACCESSES := SETTINGS_SET_ACCESSES P;
     KNOWLEDGE_UPDATE := KNOWLEDGE_UPDATE P;
     KNOWLEDGE_DELETE := KNOWLEDGE_DELETE P;
     KNOWLEDGE_KNUPDATE := KNOWLEDGE_KNUPDATE P;
     KNOWLEDGE_KNASKIMPORT := KNOWLEDGE_KNASKIMPORT P;
     MEMBER_ACCESS_RIGHT_ADMIN := MEMBER_ACCESS_RIGHT_ADMIN P;
     ENTITY_TYPE_BACKGROUND_TASK := ENTITY_TYPE_BACKGROUND_TASK P;
     ENTITY_TYPE_NOTIFICATION := ENTITY_TYPE_NOTIFICATION P;
     ENTITY_TYPE_VOCABULARY := ENTITY_TYPE_VOCABULARY P;
     ENTITY_TYPE_DELETE_OPERATION := ENTITY_TYPE_DELETE_OPERATION P;
     INDEX_INTERNAL_OBJECTS := INDEX_INTERNAL_OBJECTS P |}.






(** A platform whose audit listener is down. *)
Definition deaf_platform : Collaborators :=
  with_listeners platform
    (fun _ _ => inl (ExternalError "listener down"))
    (fun _ _ _ => inr tt).

End T.

End Fixtures.

(** * Properties of the retention manager *)

Unset Implicit Arguments.

Module RetentionFacts.
Import RetentionManager.

Ltac run_step :=
  unfold bind, query, observe, emit, call, ret, throw, try_catch, scope_error; simpl.

Ltac split_match :=
  match goal with
  | |- context [match ?x with _ => _ end] => destruct x eqn:?; simpl
  | |- context [if ?x then _ else _] => destruct x eqn:?; simpl
  end.

Section Facts.
Variable C : Collaborators.

(** Fetching a page only reads. *)
Lemma fetch_page_silent (s : string) (before : Moment C) (fs : option string)
    (tr : list event) :
  snd (fetch_page C s before fs tr) = tr.
Proof.
  unfold fetch_page.
  destruct (s =? "knowledge").
  - destruct fs as [f|]; [destruct (truthy (Some f))|]; run_step;
      try destruct (JSON_parse C f); simpl;
      try destruct (convertFiltersToQueryOptions C _ before); reflexivity.
  - repeat split_match; reflexivity.
Qed.

(** A page is only returned for one of the three scopes. *)
Lemma fetch_page_supported (s : string) (before : Moment C) (fs : option string)
    (tr : list event) (page : Connection) :
  fst (fetch_page C s before fs tr) = inr page -> supported_scope s = true.
Proof.
  unfold fetch_page, supported_scope.
  destruct (s =? "knowledge"); [reflexivity|].
  destruct (s =? "file"); [reflexivity|].
  destruct (s =? "workbench"); [reflexivity|].
  run_step. discriminate.
Qed.

Lemma deleteElement_supported (s : string) (e : Edge) (tr : list event) :
  supported_scope s = true ->
  deleteElement C s (if s =? "knowledge" then internal_id (node e) else id (node e))
                (entity_type (node e)) tr
  = (deletion_answer C s tr e, tr ++ [delete_call s e]).
Proof.
  unfold supported_scope, deleteElement, deletion_answer, delete_call. intros Hs.
  destruct (s =? "knowledge"); [reflexivity|].
  simpl in Hs. rewrite Hs. reflexivity.
Qed.

(** One turn of the loop never throws, whatever the collaborator answers. *)
Lemma process_element_turn (s : string) (e : Edge) (tr : list event) :
  supported_scope s = true ->
  exists turn,
    processed C s tr e turn
    /\ process_element C s e tr = (inr tt, tr ++ turn).
Proof.
  intros Hs. unfold process_element. run_step.
  rewrite (deleteElement_supported s e tr Hs).
  destruct (deletion_answer C s tr e) as [err|[]] eqn:Hans.
  - exists [delete_call s e; logApp_error err (id (node e)) "RETENTION_MANAGER"].
    split; [now apply processed_failed|].
    now rewrite <- app_assoc.
  - eexists. split; [now apply processed_deleted|].
    now rewrite <- app_assoc.
Qed.

(** The loop runs to its end and never throws. *)
Lemma for_each_batch_run (s : string) (es : list Edge) :
  supported_scope s = true ->
  forall tr, exists evs,
    batch_run C s tr es evs
    /\ for_each (process_element C s) es tr = (inr tt, tr ++ evs).
Proof.
  intros Hs. induction es as [|e es IH]; intros tr.
  - exists []. split; [constructor|]. simpl. unfold ret. now rewrite app_nil_r.
  - destruct (process_element_turn s e tr Hs) as (turn & Hturn & Hrun).
    destruct (IH (tr ++ turn)) as (rest & Hrest & Hloop).
    exists (turn ++ rest). split; [now constructor|].
    simpl. unfold bind at 1. rewrite Hrun, Hloop. now rewrite app_assoc.
Qed.

Lemma batch_run_delete_calls (s : string) (tr : list event) (es : list Edge)
    (evs : list event) :
  batch_run C s tr es evs ->
  filter is_delete_call evs = map (delete_call s) es.
Proof.
  assert (Hcall : forall e, is_delete_call (delete_call s e) = true).
  { intros e. unfold delete_call. now destruct (s =? "knowledge"). }
  induction 1 as [|tr e es turn rest Hturn _ IH]; [reflexivity|].
  rewrite filter_app, IH.
  destruct Hturn; simpl; now rewrite Hcall.
Qed.

Lemma batch_run_patches (s : string) (tr : list event) (es : list Edge)
    (evs : list event) :
  batch_run C s tr es evs -> patches evs = [].
Proof.
  assert (Hcall : forall e rest, patches (delete_call s e :: rest) = patches rest).
  { intros e rest. unfold delete_call. now destruct (s =? "knowledge"). }
  assert (Happ : forall a b, patches (a ++ b) = patches a ++ patches b).
  { intros a b. induction a as [|ev a IHa]; [reflexivity|].
    destruct ev; simpl; now rewrite ?IHa. }
  induction 1 as [|tr e es turn rest Hturn _ IH]; [reflexivity|].
  rewrite Happ, IH.
  destruct Hturn; rewrite Hcall; reflexivity.
Qed.

(** The shape of a whole run of [executeProcessing] once the adapter has
    returned a page: the loop over the batch, then the patch, whose outcome
    is the outcome of the run. *)
Lemma executeProcessing_run (rule : RetentionRule) (tr : list event)
    (page : Connection) :
  fetched C rule tr = inr page ->
  let batch := batch_of (scope rule) page in
  let tr1 := started rule tr ++ [logApp_debug (Clearing_elements (length batch))] in
  exists evs,
    batch_run C (scope rule) tr1 batch evs
    /\ let patch := {| last_execution_date := now C (tr1 ++ evs);
                       remaining_count := globalCount (pageInfo page);
                       last_deleted_count := length batch |} in
       let request := patchAttribute_call (rule_id rule)
                        (ENTITY_TYPE_RETENTION_RULE C) patch in
       executeProcessing C rule tr
       = (patchAttribute C (tr1 ++ evs) (rule_id rule)
            (ENTITY_TYPE_RETENTION_RULE C) patch,
          tr1 ++ evs ++ [request]).
Proof.
  intros Hpage batch tr1. unfold fetched in Hpage.
  pose proof (fetch_page_supported _ _ _ _ _ Hpage) as Hs.
  pose proof (fetch_page_silent (scope rule)
                (cutoff C rule (started rule tr)) (filters rule)
                (started rule tr)) as Hsilent.
  destruct (for_each_batch_run (scope rule) batch Hs tr1) as (evs & Hrun & Hloop).
  exists evs. split; [exact Hrun|].
  unfold executeProcessing, getElementsToDelete.
  unfold bind at 1. unfold emit at 1.
  unfold bind at 1. unfold observe at 1.
  unfold bind at 1. unfold bind at 1.
  fold (started rule tr).
  destruct (fetch_page C (scope rule) (cutoff C rule (started rule tr))
              (filters rule) (started rule tr)) as [r tr'].
  simpl in Hpage, Hsilent. subst r tr'.
  assert (Hbatch :
    (if (scope rule =? "file") || (scope rule =? "knowledge")
     then ret (E:=event)
            {| edges := filter not_in_flight (edges page); pageInfo := pageInfo page |}
     else ret page) (started rule tr)
    = (inr {| edges := batch; pageInfo := pageInfo page |}, started rule tr)).
  { unfold batch, batch_of, ret.
    destruct ((scope rule =? "file") || (scope rule =? "knowledge")); [reflexivity|].
    now destruct page. }
  rewrite Hbatch. cbn [edges pageInfo].
  unfold bind at 1. unfold emit at 1. fold tr1.
  unfold bind at 1. rewrite Hloop.
  run_step. now rewrite <- app_assoc.
Qed.

Lemma batch_run_app (s : string) (pre post : list Edge) :
  forall tr evs,
    batch_run C s tr (pre ++ post) evs ->
    exists evs1 evs2,
      evs = evs1 ++ evs2
      /\ batch_run C s tr pre evs1
      /\ batch_run C s (tr ++ evs1) post evs2.
Proof.
  induction pre as [|e pre IH]; intros tr evs Hrun; simpl in Hrun.
  - exists [], evs. rewrite app_nil_r. repeat split; [constructor|exact Hrun].
  - inversion Hrun as [|tr' e' es turn rest Hturn Hrest]; subst.
    destruct (IH _ _ Hrest) as (evs1 & evs2 & -> & Hpre & Hpost).
    exists (turn ++ evs1), evs2. rewrite <- !app_assoc in *.
    repeat split; [now constructor|exact Hpost].
Qed.

(** The debug lines of completed deletions of a loop are as many as the
    elements whose deletion returned. *)
Lemma batch_run_deleted_count (s : string) (tr : list event) (es : list Edge)
    (evs : list event) :
  batch_run C s tr es evs ->
  length (deleted_ids evs) = deleted_count C s tr es.
Proof.
  assert (Hcall : forall e rest, deleted_ids (delete_call s e :: rest) = deleted_ids rest).
  { intros e rest. unfold delete_call. now destruct (s =? "knowledge"). }
  induction 1 as [|tr e es turn rest Hturn _ IH]; [reflexivity|].
  destruct Hturn as [Hans|err Hans]; simpl deleted_count; rewrite Hans;
    rewrite <- IH; cbn [app]; rewrite Hcall; reflexivity.
Qed.

Lemma filter_settled (es : list Edge) :
  Forall settled (filter not_in_flight es).
Proof.
  apply Forall_forall. intros e He. apply filter_In in He as [_ He].
  unfold not_in_flight in He. apply andb_true_iff in He as [Hup Hworks].
  split.
  - destruct (uploadStatus (node e)) as [u|]; [|discriminate].
    apply String.eqb_eq in Hup. now subst.
  - intros w Hw. rewrite forallb_forall in Hworks. specialize (Hworks w Hw).
    destruct w as [[[st|]]|]; try discriminate.
    simpl in Hworks. apply String.eqb_eq in Hworks. now subst.
Qed.

(** What the code persists as [last_deleted_count]: the size of the batch
    it iterated over. *)
Lemma executeProcessing_last_deleted_count (rule : RetentionRule)
    (tr : list event) (page : Connection) :
  fetched C rule tr = inr page ->
  exists evs p,
    snd (executeProcessing C rule tr) = tr ++ evs
    /\ patches evs = [p]
    /\ last_deleted_count p = length (batch_of (scope rule) page).
Proof.
  intros Hpage.
  destruct (executeProcessing_run rule tr page Hpage) as (evs & Hrun & Hexec).
  cbv zeta in Hexec. rewrite Hexec. cbn [snd]. unfold started.
  eexists; eexists. split; [rewrite <- !app_assoc; reflexivity|].
  cbn [app patches].
  assert (Happ : forall a b, patches (a ++ b) = patches a ++ patches b).
  { intros a b. induction a as [|ev a IHa]; [reflexivity|].
    destruct ev; simpl; now rewrite ?IHa. }
  rewrite Happ, (batch_run_patches _ _ _ _ Hrun). split; reflexivity.
Qed.

(** C4. When the deletion of one element of a batch throws, the exception
    is caught and logged with the element id and the manager name, the loop
    goes on with the next element, and the rule is patched all the same:
    once the adapter has returned a page, a run of [executeProcessing] sends
    one deletion request per element of the batch, in order; every element
    gets its turn ([processed]: the request, then the debug line, or, when
    the collaborator threw [err], the line [logApp_error err id
    "RETENTION_MANAGER"]) and the loop runs on over the elements after it;
    the run ends with the request to [patchAttribute], and throws only if
    that request does. *)
Theorem deletion_failure_does_not_abort (rule : RetentionRule)
    (tr : list event) (page : Connection) :
  fetched C rule tr = inr page ->
  let batch := batch_of (scope rule) page in
  let tr1 := started rule tr ++ [logApp_debug (Clearing_elements (length batch))] in
  exists evs patch,
    executeProcessing C rule tr
    = (patchAttribute C (tr1 ++ evs) (rule_id rule) (ENTITY_TYPE_RETENTION_RULE C) patch,
       tr1 ++ evs
       ++ [patchAttribute_call (rule_id rule) (ENTITY_TYPE_RETENTION_RULE C) patch])
    /\ filter is_delete_call evs = map (delete_call (scope rule)) batch
    /\ forall pre e post, batch = pre ++ e :: post ->
         exists before_e turn after_e,
           evs = before_e ++ turn ++ after_e
           /\ processed C (scope rule) (tr1 ++ before_e) e turn
           /\ batch_run C (scope rule) (tr1 ++ before_e ++ turn) post after_e.
Proof.
  intros Hpage batch tr1.
  destruct (executeProcessing_run rule tr page Hpage) as (evs & Hrun & Hexec).
  fold batch tr1 in Hrun, Hexec. cbv zeta in Hexec.
  eexists evs, _. split; [exact Hexec|].
  split; [exact (batch_run_delete_calls _ _ _ _ Hrun)|].
  intros pre e post Hsplit. rewrite Hsplit in Hrun.
  apply batch_run_app in Hrun as (before_e & rest & -> & _ & Hrest).
  inversion Hrest as [|tr' e' es turn after_e Hturn Hafter]; subst.
  exists before_e, turn, after_e. repeat split; [exact Hturn|].
  now rewrite app_assoc.
Qed.

(** C6. The [remaining_count] a run persists is the global count of the
    page the adapter returned, that is the total of matching elements
    before the deletions of the run: the run sends exactly one patch, and
    its [remaining_count] is [page.pageInfo.globalCount] (the filter on the
    edges leaves [pageInfo] alone). *)
Theorem remaining_count_is_global_count (rule : RetentionRule)
    (tr : list event) (page : Connection) :
  fetched C rule tr = inr page ->
  exists evs p,
    snd (executeProcessing C rule tr) = tr ++ evs
    /\ patches evs = [p]
    /\ remaining_count p = globalCount (pageInfo page).
Proof.
  intros Hpage.
  destruct (executeProcessing_run rule tr page Hpage) as (evs & Hrun & Hexec).
  cbv zeta in Hexec. rewrite Hexec. cbn [snd]. unfold started.
  eexists; eexists. split; [rewrite <- !app_assoc; reflexivity|].
  cbn [app patches].
  assert (Happ : forall a b, patches (a ++ b) = patches a ++ patches b).
  { intros a b. induction a as [|ev a IHa]; [reflexivity|].
    destruct ev; simpl; now rewrite ?IHa. }
  rewrite Happ, (batch_run_patches _ _ _ _ Hrun). split; reflexivity.
Qed.

(** Where the filter of [getElementsToDelete] applies, that is for a rule of
    scope [knowledge] or [file], an element whose [uploadStatus] is not
    [complete], or that has a work whose status is not [complete], is never
    deleted: every deletion request of a run targets an element of the
    fetched page that is complete and whose works are all complete. *)
Theorem in_flight_never_deleted_knowledge_file (rule : RetentionRule) :
  scope rule = "knowledge" \/ scope rule = "file" ->
  in_flight_protected C rule.
Proof.
  intros Hscope tr page Hpage.
  destruct (executeProcessing_run rule tr page Hpage) as (evs & Hrun & Hexec).
  cbv zeta in Hexec. rewrite Hexec. cbn [snd]. unfold started.
  eexists. split; [rewrite <- !app_assoc; reflexivity|].
  intros ev Hin Hdel.
  assert (Hev : In ev (filter is_delete_call evs)).
  { cbn [app] in Hin. destruct Hin as [<-|[<-|Hin]]; try discriminate.
    apply in_app_or in Hin as [Hin|[<-|[]]]; [|discriminate].
    apply filter_In. now split. }
  rewrite (batch_run_delete_calls _ _ _ _ Hrun) in Hev.
  apply in_map_iff in Hev as (e & <- & He).
  assert (Hbatch : batch_of (scope rule) page = filter not_in_flight (edges page)).
  { unfold batch_of. now destruct Hscope as [-> | ->]. }
  rewrite Hbatch in He. exists e. repeat split.
  - now apply filter_In in He.
  - pose proof (filter_settled (edges page)) as Hall.
    rewrite Forall_forall in Hall. apply (Hall e He).
  - pose proof (filter_settled (edges page)) as Hall.
    rewrite Forall_forall in Hall. apply (Hall e He).
Qed.

End Facts.

Import Fixtures.

(** C1. The [last_deleted_count] persisted after a batch is meant to be
    the number of elements of the batch whose deletion did not throw.  On a
    [file] rule whose batch is [old.csv; locked.pdf], where the file storage
    throws on [locked.pdf], one deletion returns ([deleted_count] is 1, one
    [Deleting_after] line) and the run persists [last_deleted_count = 2],
    the size of the batch. *)
Theorem last_deleted_count_counts_failed_deletion :
  executeProcessing R.store (R.rule_for "file") []
  = (inr tt,
     [logApp_debug (Executing_rule "file cleanup");
      logApp_debug (Clearing_elements 2);
      deleteFile_call "old.csv";
      logApp_debug (Deleting_after "old.csv" "a month");
      deleteFile_call "locked.pdf";
      logApp_error (ExternalError "file is locked") "locked.pdf" "RETENTION_MANAGER";
      patchAttribute_call "rule-file" "RetentionRule"
        {| last_execution_date := "2024-02-01T00:00:00.000Z";
           remaining_count := 2;
           last_deleted_count := 2 |}])
  /\ batch_of "file" R.global_page = edges R.global_page
  /\ deleted_count R.store "file"
       [logApp_debug (Executing_rule "file cleanup");
        logApp_debug (Clearing_elements 2)]
       (batch_of "file" R.global_page) = 1.
Proof.
  repeat split; vm_compute; reflexivity.
Qed.

(** C2. In every scope an element whose upload is not complete, or that
    has a work that is not complete, is never to be deleted.  The scope
    [workbench] breaks it: on a page whose only element is the workbench
    [draft.json], with its upload in progress and a work in progress, a
    [workbench] rule deletes the element, whereas a [file] rule served the
    same page deletes nothing. *)
Lemma workbench_in_flight_element_deleted :
  executeProcessing R.store (R.rule_for "workbench") []
  = (inr tt,
     [logApp_debug (Executing_rule "workbench cleanup");
      logApp_debug (Clearing_elements 1);
      deleteFile_call "draft.json";
      logApp_debug (Deleting_after "draft.json" "a month");
      patchAttribute_call "rule-workbench" "RetentionRule"
        {| last_execution_date := "2024-02-01T00:00:00.000Z";
           remaining_count := 1;
           last_deleted_count := 1 |}])
  /\ ~ in_flight_protected R.store (R.rule_for "workbench")
  /\ fetched R.mirror_store (R.rule_for "file") [] = inr R.pending_page
  /\ executeProcessing R.mirror_store (R.rule_for "file") []
     = (inr tt,
        [logApp_debug (Executing_rule "file cleanup");
         logApp_debug (Clearing_elements 0);
         patchAttribute_call "rule-file" "RetentionRule"
           {| last_execution_date := "2024-02-01T00:00:00.000Z";
              remaining_count := 1;
              last_deleted_count := 0 |}]).
Proof.
  split; [vm_compute; reflexivity|].
  split; [|split; vm_compute; reflexivity].
  intros Hprot.
  destruct (Hprot [] R.pending_page eq_refl) as (evs & Hevs & Hall).
  vm_compute in Hevs. subst evs.
  destruct (Hall (deleteFile_call "draft.json")) as (e & He & [Hup _] & _).
  - right; right; left; reflexivity.
  - reflexivity.
  - destruct He as [<-|[]]. discriminate Hup.
Qed.

Lemma in_flight_never_deleted_knowledge_file_witness :
  (scope (R.rule_for "file") = "knowledge" \/ scope (R.rule_for "file") = "file")
  /\ fetched R.mirror_store (R.rule_for "file") [] = inr R.pending_page
  /\ in_flight_protected R.mirror_store (R.rule_for "file").
Proof.
  split; [right; reflexivity|]. split; [reflexivity|].
  apply (in_flight_never_deleted_knowledge_file R.mirror_store (R.rule_for "file")).
  right; reflexivity.
Defined.

Lemma deletion_failure_does_not_abort_witness :
  fetched R.store (R.rule_for "file") [] = inr R.global_page
  /\ exists evs patch,
       executeProcessing R.store (R.rule_for "file") []
       = (patchAttribute R.store
            ((started (R.rule_for "file") []
              ++ [logApp_debug (Clearing_elements 2)]) ++ evs)
            "rule-file" "RetentionRule" patch,
          (started (R.rule_for "file") [] ++ [logApp_debug (Clearing_elements 2)])
          ++ evs ++ [patchAttribute_call "rule-file" "RetentionRule" patch])
       /\ filter is_delete_call evs
          = [deleteFile_call "old.csv"; deleteFile_call "locked.pdf"].
Proof.
  split; [reflexivity|].
  destruct (deletion_failure_does_not_abort R.store (R.rule_for "file") []
              R.global_page eq_refl) as (evs & patch & Hexec & Hcalls & _).
  exists evs, patch. split; [exact Hexec|exact Hcalls].
Defined.

Lemma remaining_count_is_global_count_witness :
  fetched R.store (R.rule_for "knowledge") [] = inr R.knowledge_page
  /\ exists evs p,
       snd (executeProcessing R.store (R.rule_for "knowledge") []) = [] ++ evs
       /\ patches evs = [p]
       /\ remaining_count p = 150.
Proof.
  split; [reflexivity|].
  exact (remaining_count_is_global_count R.store (R.rule_for "knowledge") []
           R.knowledge_page eq_refl).
Defined.

End RetentionFacts.

(** * Properties of the background-task gate and factory *)

Module TaskFacts.
Import BackgroundTask.

Section Facts.
Variable C : Collaborators.

(** *** Ramda's [uniq] *)

Lemma uniq_from_In (l seen : list string) (x : string) :
  In x (uniq_from seen l) <-> In x l /\ ~ In x seen.
Proof.
  revert seen. induction l as [|y l IH]; intros seen; simpl.
  - tauto.
  - destruct (existsb (String.eqb y) seen) eqn:Hseen.
    + rewrite IH. apply existsb_exists in Hseen as (z & Hz & Hyz).
      apply String.eqb_eq in Hyz. subst z.
      split; [tauto|]. intros [[<-|Hx] Hn]; tauto.
    + rewrite <- Bool.not_true_iff_false, existsb_exists in Hseen.
      simpl. rewrite IH. simpl. split.
      * intros [<-|[Hx Hn]]; [|tauto].
        split; [tauto|]. intros Hy. apply Hseen. exists y.
        split; [exact Hy|apply String.eqb_refl].
      * intros [[<-|Hx] Hn]; [tauto|].
        destruct (String.eqb_spec y x) as [->|Hne]; [tauto|].
        right. split; [exact Hx|]. intros [Heq|Hs]; tauto.
Qed.

Lemma uniq_from_all_seen (l seen : list string) :
  (forall x, In x l -> In x seen) -> uniq_from seen l = [].
Proof.
  induction l as [|y l IH]; intros Hall; [reflexivity|]. simpl.
  assert (Hy : existsb (String.eqb y) seen = true).
  { apply existsb_exists. exists y. split; [apply Hall; now left|apply String.eqb_refl]. }
  rewrite Hy. apply IH. intros x Hx. apply Hall. now right.
Qed.

(** [notificationsUsers.length === 1 && notificationsUsers.includes(u)]
    says that there is an owner and that every owner is [u]. *)
Lemma single_owner (owners : list string) (u : string) :
  (length (uniq owners) =? 1)%nat && existsb (String.eqb u) (uniq owners) = true
  <-> owners <> [] /\ forall x, In x owners -> x = u.
Proof.
  rewrite andb_true_iff, Nat.eqb_eq, existsb_exists. split.
  - intros [Hlen (v & Hv & Huv)]. apply String.eqb_eq in Huv. subst v.
    destruct (uniq owners) as [|w [|? ?]] eqn:Huniq; try discriminate.
    destruct Hv as [->|[]]. split.
    + intros ->. discriminate.
    + intros x Hx.
      assert (Hin : In x (uniq owners)).
      { unfold uniq. apply uniq_from_In. split; [exact Hx|tauto]. }
      rewrite Huniq in Hin. destruct Hin as [<-|[]]. reflexivity.
  - intros [Hne Hall]. destruct owners as [|x l]; [congruence|].
    assert (x = u) by (apply Hall; now left). subst x.
    unfold uniq. simpl.
    rewrite (uniq_from_all_seen l [u]).
    + split; [reflexivity|]. exists u. split; [now left|apply String.eqb_refl].
    + intros y Hy. left. symmetry. apply Hall. now right.
Qed.

Lemma includes_undefined_In (A : Type) (objects : list (option A)) :
  includes_undefined objects = true <-> In None objects.
Proof.
  unfold includes_undefined. rewrite existsb_exists. split.
  - intros ([o|] & Hin & Ho); [discriminate|exact Hin].
  - intros Hin. now exists None.
Qed.

Lemma resolved_In (A : Type) (objects : list (option A)) (o : A) :
  In o (resolved objects) <-> In (Some o) objects.
Proof.
  induction objects as [|[x|] os IH]; simpl; [tauto| |].
  - rewrite IH. split; intros [H|H]; try tauto; [left; congruence|left; congruence].
  - rewrite IH. split; [tauto|]. intros [H|H]; [discriminate|exact H].
Qed.

(** *** The branches of [checkActionValidity] *)

Lemma check_import (user : User) (input : Input) (taskType : string)
    (fs : list Filter) :
  baseFilters C input = inr fs ->
  checkActionValidity C user input (Some Scope_Import) taskType
  = (ensure! isUserHasCapability C user (KNOWLEDGE_KNASKIMPORT C)
       else_throw ForbiddenAccess None ;;
     if forallb (fun a => a =? ACTION_TYPE_DELETE) (actions input)
     then inl (UnsupportedError "Background tasks of scope Import can only be deletions.")
     else inr tt).
Proof.
  intros Hfs. unfold checkActionValidity. rewrite Hfs. reflexivity.
Qed.

Lemma asks_for_deletion (acts : list string) :
  Nat.ltb 0 (length (filter isDeleteRestrictedAction acts))
  = existsb isDeleteRestrictedAction acts.
Proof.
  induction acts as [|a acts IH]; [reflexivity|]. simpl.
  destruct (isDeleteRestrictedAction a); [reflexivity|exact IH].
Qed.

Lemma check_knowledge (user : User) (input : Input) (taskType : string)
    (fs : list Filter) :
  baseFilters C input = inr fs ->
  knowledge_capabilities C user input ->
  checkActionValidity C user input (Some Scope_Knowledge) taskType
  = if taskType =? TASK_TYPE_QUERY then
      ensure
        (negb ((negb (forallb (fun type => type =? ENTITY_TYPE_DELETE_OPERATION C)
                              (typeFiltersValuesOf fs))
                && negb (areParentTypesKnowledge C
                           (map (getParentTypes C) (typeFiltersValuesOf fs))))
               || existsb (fun type => type =? ENTITY_TYPE_VOCABULARY C)
                          (typeFiltersValuesOf fs)))
        (ForbiddenAccess not_knowledge_message)
    else if taskType =? TASK_TYPE_LIST then
      let objects := map (internalLoadById C user) (ids input) in
      ensure
        (negb (if includes_undefined objects then true
               else
                 (negb (forallb (fun o => match o with
                                          | Some o' => entity_type o' =? ENTITY_TYPE_DELETE_OPERATION C
                                          | None => false
                                          end) objects)
                  && negb (areParentTypesKnowledge C (map parent_types (resolved objects))))
                 || existsb (fun o => entity_type o =? ENTITY_TYPE_VOCABULARY C)
                            (resolved objects)))
        (ForbiddenAccess not_knowledge_message)
    else inl (UnsupportedError bad_type_message).
Proof.
  intros Hfs [Hupdate Hdelete]. unfold checkActionValidity.
  rewrite Hfs. cbn [exc_bind]. cbv beta zeta.
  change (Scope_Knowledge =? Scope_Settings) with false.
  change (Scope_Knowledge =? Scope_Knowledge) with true. cbv iota.
  rewrite Hupdate. cbn [ensure exc_bind].
  rewrite asks_for_deletion.
  destruct (existsb isDeleteRestrictedAction (actions input)); cbn [negb orb].
  - rewrite (Hdelete eq_refl). reflexivity.
  - reflexivity.
Qed.

Lemma check_user_list (user : User) (input : Input) (fs : list Filter) :
  baseFilters C input = inr fs ->
  checkActionValidity C user input (Some Scope_User) TASK_TYPE_LIST
  = let objects :=
      map (fun i => storeLoadById C user i (ENTITY_TYPE_NOTIFICATION C)) (ids input) in
    ensure! negb (includes_undefined objects)
      else_throw ForbiddenAccess not_notifications_message ;;
    let notificationsUsers := uniq (map user_id (resolved objects)) in
    ensure (isUserHasCapability C user (SETTINGS_SET_ACCESSES C)
            || ((length notificationsUsers =? 1)%nat
                && existsb (String.eqb (id user)) notificationsUsers))
           (ForbiddenAccess None).
Proof.
  intros Hfs. unfold checkActionValidity. rewrite Hfs. reflexivity.
Qed.

(** C3. [createListTask] validates first: when [checkActionValidity]
    denies, the denial is the result and nothing is emitted or persisted (the
    trace is unchanged); when a creation succeeds, the check had allowed it
    and the run added exactly the audit event and then the indexing of the
    same task record. *)
Theorem createListTask_validates_first (user : User) (input : Input)
    (tr : list event) :
  (forall e,
     checkActionValidity C user input (scope input) TASK_TYPE_LIST = inl e ->
     createListTask C user input tr = (inl e, tr))
  /\ (forall listTask tr',
        createListTask C user input tr = (inr listTask, tr') ->
        checkActionValidity C user input (scope input) TASK_TYPE_LIST = inr tt
        /\ tr' = tr ++ [creation_audit C user listTask;
                        elIndex_call (INDEX_INTERNAL_OBJECTS C) listTask]).
Proof.
  split.
  - intros e Hdeny. unfold createListTask, bind, query. now rewrite Hdeny.
  - intros listTask tr'. unfold createListTask, createDefaultTask.
    unfold bind, query, observe, call, ret.
    destruct (checkActionValidity C user input (scope input) TASK_TYPE_LIST)
      as [e|[]]; [discriminate|].
    destruct (publishUserAction C tr _) as [e|[]]; [discriminate|].
    destruct (elIndex C _ _ _) as [e|[]]; [discriminate|].
    intros Hrun. injection Hrun as <- <-.
    split; [reflexivity|]. now rewrite <- app_assoc.
Qed.

(** C5. For the scope Import and a principal with the import capability
    (on an input whose filters, if any, deserialize), a request all of whose
    actions are DELETE is denied with an unsupported-operation error, and a
    request with at least one action other than DELETE is allowed, whatever
    DELETE it also carries. *)
Theorem import_scope_actions (user : User) (input : Input) (taskType : string)
    (fs : list Filter) :
  baseFilters C input = inr fs ->
  isUserHasCapability C user (KNOWLEDGE_KNASKIMPORT C) = true ->
  ((forall a, In a (actions input) -> a = ACTION_TYPE_DELETE) ->
   checkActionValidity C user input (Some Scope_Import) taskType
   = inl (UnsupportedError "Background tasks of scope Import can only be deletions."))
  /\ ((exists a, In a (actions input) /\ a <> ACTION_TYPE_DELETE) ->
      checkActionValidity C user input (Some Scope_Import) taskType = inr tt).
Proof.
  intros Hfs Hcap. rewrite (check_import user input taskType fs Hfs), Hcap.
  cbn [ensure exc_bind]. split.
  - intros Hall.
    assert (Hevery : forallb (fun a => a =? ACTION_TYPE_DELETE) (actions input) = true).
    { apply forallb_forall. intros a Ha. apply String.eqb_eq. now apply Hall. }
    now rewrite Hevery.
  - intros (a & Ha & Hne).
    destruct (forallb (fun a => a =? ACTION_TYPE_DELETE) (actions input)) eqn:Hevery;
      [|reflexivity].
    rewrite forallb_forall in Hevery. specialize (Hevery a Ha).
    apply String.eqb_eq in Hevery. contradiction.
Qed.

(** C9. For the scope Import and a principal with the import capability
    (on an input whose filters, if any, deserialize), an empty list of
    actions is denied with the unsupported-operation error. *)
Theorem import_empty_actions_denied (user : User) (input : Input)
    (taskType : string) (fs : list Filter) :
  baseFilters C input = inr fs ->
  isUserHasCapability C user (KNOWLEDGE_KNASKIMPORT C) = true ->
  actions input = [] ->
  checkActionValidity C user input (Some Scope_Import) taskType
  = inl (UnsupportedError "Background tasks of scope Import can only be deletions.").
Proof.
  intros Hfs Hcap Hactions.
  rewrite (check_import user input taskType fs Hfs), Hcap, Hactions. reflexivity.
Qed.


(** C8. For the scope User and a LIST task (on an input whose filters, if
    any, deserialize): if one id does not resolve as a notification the
    request is denied; otherwise it is allowed exactly when the principal
    holds the manage-accesses capability or the resolved notifications have
    a single owner and that owner is the principal (there is a notification,
    and the [user_id] of every one is the principal's id), and denied with a
    forbidden error when it is not allowed. *)
Theorem user_list_gate (user : User) (input : Input) (fs : list Filter) :
  baseFilters C input = inr fs ->
  (In None (map (fun i => storeLoadById C user i (ENTITY_TYPE_NOTIFICATION C))
                (ids input)) ->
   checkActionValidity C user input (Some Scope_User) TASK_TYPE_LIST
   = inl (ForbiddenAccess not_notifications_message))
  /\ (~ In None (map (fun i => storeLoadById C user i (ENTITY_TYPE_NOTIFICATION C))
                     (ids input)) ->
      (checkActionValidity C user input (Some Scope_User) TASK_TYPE_LIST = inr tt
       <-> (isUserHasCapability C user (SETTINGS_SET_ACCESSES C) = true
            \/ (ids input <> []
                /\ forall i o,
                     In i (ids input) ->
                     storeLoadById C user i (ENTITY_TYPE_NOTIFICATION C) = Some o ->
                     user_id o = id user)))
      /\ (checkActionValidity C user input (Some Scope_User) TASK_TYPE_LIST = inr tt
          \/ checkActionValidity C user input (Some Scope_User) TASK_TYPE_LIST
             = inl (ForbiddenAccess None))).
Proof.
  intros Hfs. rewrite (check_user_list user input fs Hfs). cbv zeta.
  set (objects := map (fun i => storeLoadById C user i (ENTITY_TYPE_NOTIFICATION C))
                      (ids input)).
  split.
  - intros Hnone. apply includes_undefined_In in Hnone. now rewrite Hnone.
  - intros Hall.
    assert (Hdef : includes_undefined objects = false).
    { apply Bool.not_true_iff_false. now rewrite includes_undefined_In. }
    rewrite Hdef. cbn [negb ensure exc_bind].
    set (owned := (length (uniq (map user_id (resolved objects))) =? 1)%nat
                  && existsb (String.eqb (id user))
                             (uniq (map user_id (resolved objects)))).
    assert (Howned : owned = true <->
              ids input <> []
              /\ forall i o, In i (ids input) ->
                   storeLoadById C user i (ENTITY_TYPE_NOTIFICATION C) = Some o ->
                   user_id o = id user).
    { unfold owned. rewrite single_owner. split.
      - intros [Hne Hown]. split.
        + intros Hids. apply Hne. unfold objects. now rewrite Hids.
        + intros i o Hi Hload. apply Hown. apply in_map. apply resolved_In.
          unfold objects. apply in_map_iff. exists i. now split.
      - intros [Hne Hown]. split.
        + destruct (ids input) as [|i l] eqn:Hids; [congruence|].
          assert (Hi : In (storeLoadById C user i (ENTITY_TYPE_NOTIFICATION C)) objects).
          { unfold objects. rewrite ?Hids. now left. }
          destruct (storeLoadById C user i (ENTITY_TYPE_NOTIFICATION C)) as [o|] eqn:Hload;
            [|contradiction].
          apply resolved_In in Hi. intros Hnil.
          apply (in_map user_id) in Hi. rewrite Hnil in Hi. destruct Hi.
        + intros x Hx. apply in_map_iff in Hx as (o & <- & Ho).
          apply resolved_In in Ho. unfold objects in Ho.
          apply in_map_iff in Ho as (i & Hload & Hi). now apply (Hown i o). }
    destruct (isUserHasCapability C user (SETTINGS_SET_ACCESSES C)); cbn [orb ensure].
    + split; [|now left]. split; [now left|reflexivity].
    + destruct owned.
      * split; [|now left]. split; [|reflexivity]. intros _. right. now apply Howned.
      * split; [|now right]. split; [discriminate|].
        intros [Hcap|Hown]; [discriminate|]. apply Howned in Hown. discriminate.
Qed.

(** C10. For the scope Knowledge and a principal with the required
    capabilities (on an input whose filters, if any, deserialize), a QUERY
    whose filters carry no [entity_type] value is allowed, and so is a LIST
    whose list of ids is empty. *)
Theorem knowledge_empty_targets_allowed (user : User) (input : Input)
    (fs : list Filter) :
  baseFilters C input = inr fs ->
  knowledge_capabilities C user input ->
  (typeFiltersValuesOf fs = [] ->
   checkActionValidity C user input (Some Scope_Knowledge) TASK_TYPE_QUERY = inr tt)
  /\ (ids input = [] ->
      checkActionValidity C user input (Some Scope_Knowledge) TASK_TYPE_LIST = inr tt).
Proof.
  intros Hfs Hcaps. split.
  - intros Hnone.
    rewrite (check_knowledge user input TASK_TYPE_QUERY fs Hfs Hcaps), Hnone.
    reflexivity.
  - intros Hnone.
    rewrite (check_knowledge user input TASK_TYPE_LIST fs Hfs Hcaps), Hnone.
    reflexivity.
Qed.

End Facts.

Import Fixtures.

Lemma createListTask_validates_first_witness :
  createListTask T.platform T.alice
    (T.request "KNOWLEDGE" ["DELETE"] None ["missing"]) []
  = (inl (ForbiddenAccess not_knowledge_message), [])
  /\ exists listTask,
       createListTask T.platform T.alice
         (T.request "KNOWLEDGE" ["DELETE"] None ["report--1"]) []
       = (inr listTask,
          [creation_audit T.platform T.alice listTask;
           elIndex_call "opencti_internal_objects" listTask]).
Proof.
  split.
  - apply (proj1 (createListTask_validates_first T.platform T.alice
                    (T.request "KNOWLEDGE" ["DELETE"] None ["missing"]) [])).
    reflexivity.
  - destruct (createListTask T.platform T.alice
                (T.request "KNOWLEDGE" ["DELETE"] None ["report--1"]) [])
      as [[e|listTask] tr'] eqn:Hrun.
    + vm_compute in Hrun. discriminate Hrun.
    + exists listTask.
      destruct (proj2 (createListTask_validates_first T.platform T.alice
                         (T.request "KNOWLEDGE" ["DELETE"] None ["report--1"]) [])
                  listTask tr' Hrun) as [_ ->].
      reflexivity.
Defined.

Lemma import_scope_actions_witness :
  isUserHasCapability T.platform T.alice "KNOWLEDGE_KNASKIMPORT" = true
  /\ checkActionValidity T.platform T.alice
       (T.request "IMPORT" ["DELETE"] None ["file-1"]) (Some Scope_Import) TASK_TYPE_LIST
     = inl (UnsupportedError "Background tasks of scope Import can only be deletions.")
  /\ checkActionValidity T.platform T.alice
       (T.request "IMPORT" ["DELETE"; "SHARE"] None ["file-1"]) (Some Scope_Import)
       TASK_TYPE_LIST
     = inr tt.
Proof.
  split; [reflexivity|]. split.
  - apply (proj1 (import_scope_actions T.platform T.alice
                    (T.request "IMPORT" ["DELETE"] None ["file-1"]) TASK_TYPE_LIST []
                    eq_refl eq_refl)).
    intros a [<-|[]]. reflexivity.
  - apply (proj2 (import_scope_actions T.platform T.alice
                    (T.request "IMPORT" ["DELETE"; "SHARE"] None ["file-1"])
                    TASK_TYPE_LIST [] eq_refl eq_refl)).
    exists "SHARE". split; [right; left; reflexivity|discriminate].
Defined.

Lemma import_empty_actions_denied_witness :
  isUserHasCapability T.platform T.alice "KNOWLEDGE_KNASKIMPORT" = true
  /\ checkActionValidity T.platform T.alice
       (T.request "IMPORT" [] None ["file-1"]) (Some Scope_Import) TASK_TYPE_LIST
     = inl (UnsupportedError "Background tasks of scope Import can only be deletions.").
Proof.
  split; [reflexivity|].
  exact (import_empty_actions_denied T.platform T.alice
           (T.request "IMPORT" [] None ["file-1"]) TASK_TYPE_LIST []
           eq_refl eq_refl eq_refl).
Defined.



Lemma user_list_gate_witness :
  isUserHasCapability T.platform T.alice "SETTINGS_SETACCESSES" = false
  /\ checkActionValidity T.platform T.alice
       (T.request "USER" [] None ["n1"; "unknown"]) (Some Scope_User) TASK_TYPE_LIST
     = inl (ForbiddenAccess not_notifications_message)
  /\ checkActionValidity T.platform T.alice
       (T.request "USER" [] None ["n1"]) (Some Scope_User) TASK_TYPE_LIST
     = inr tt
  /\ checkActionValidity T.platform T.alice
       (T.request "USER" [] None ["n1"; "n2"]) (Some Scope_User) TASK_TYPE_LIST
     <> inr tt.
Proof.
  split; [reflexivity|]. split; [|split].
  - apply (proj1 (user_list_gate T.platform T.alice
                    (T.request "USER" [] None ["n1"; "unknown"]) [] eq_refl)).
    right. left. reflexivity.
  - apply (proj2 (user_list_gate T.platform T.alice
                    (T.request "USER" [] None ["n1"]) [] eq_refl)).
    + intros [H|[]]. discriminate H.
    + right. split; [discriminate|].
      intros i o [<-|[]] Hload. injection Hload as <-. reflexivity.
  - intros Hallowed.
    apply (proj2 (user_list_gate T.platform T.alice
                    (T.request "USER" [] None ["n1"; "n2"]) [] eq_refl)) in Hallowed.
    + destruct Hallowed as [Hcap|[_ Hown]]; [discriminate Hcap|].
      specialize (Hown "n2" _ (or_intror (or_introl eq_refl)) eq_refl).
      discriminate Hown.
    + intros [H1|[H2|[]]]; [discriminate H1|discriminate H2].
Defined.

Lemma knowledge_empty_targets_allowed_witness :
  knowledge_capabilities T.platform T.alice
    (T.request "KNOWLEDGE" ["DELETE"] (Some "name:x") [])
  /\ checkActionValidity T.platform T.alice
       (T.request "KNOWLEDGE" ["DELETE"] (Some "name:x") [])
       (Some Scope_Knowledge) TASK_TYPE_QUERY
     = inr tt
  /\ checkActionValidity T.platform T.alice
       (T.request "KNOWLEDGE" ["DELETE"] (Some "name:x") [])
       (Some Scope_Knowledge) TASK_TYPE_LIST
     = inr tt.
Proof.
  assert (Hcaps : knowledge_capabilities T.platform T.alice
                    (T.request "KNOWLEDGE" ["DELETE"] (Some "name:x") [])).
  { split; reflexivity. }
  split; [exact Hcaps|].
  destruct (knowledge_empty_targets_allowed T.platform T.alice
              (T.request "KNOWLEDGE" ["DELETE"] (Some "name:x") [])
              [{| key := key_array ["name"]; values := ["x"] |}]
              eq_refl Hcaps) as [Hquery Hlist].
  split; [apply Hquery|apply Hlist]; reflexivity.
Defined.

End TaskFacts.

(** * Further properties of the retention manager *)

Module RetentionMore.
Import RetentionManager.
Import RetentionFacts.

Section More.
Variable C : Collaborators.

Lemma is_delete_call_delete_call (s : string) (e : Edge) :
  is_delete_call (delete_call s e) = true.
Proof. unfold delete_call. now destruct (s =? "knowledge"). Qed.

Lemma patched_rules_app (a b : list event) :
  patched_rules (a ++ b) = patched_rules a ++ patched_rules b.
Proof.
  induction a as [|ev a IH]; [reflexivity|].
  destruct ev; simpl; now rewrite ?IH.
Qed.

Lemma deleted_ids_app (a b : list event) :
  deleted_ids (a ++ b) = deleted_ids a ++ deleted_ids b.
Proof.
  induction a as [|ev a IH]; [reflexivity|].
  destruct ev as [| | |[]|]; simpl; now rewrite ?IH.
Qed.

Lemma batch_run_patched_rules (s : string) (tr : list event) (es : list Edge)
    (evs : list event) :
  batch_run C s tr es evs -> patched_rules evs = [].
Proof.
  induction 1 as [|tr e es turn rest Hturn _ IH]; [reflexivity|].
  rewrite patched_rules_app, IH.
  destruct Hturn; unfold delete_call; destruct (s =? "knowledge"); reflexivity.
Qed.

(** The events of a run that got a page, in one piece. *)
Lemma run_events (rule : RetentionRule) (tr : list event) (page : Connection) :
  fetched C rule tr = inr page ->
  exists evs p,
    batch_run C (scope rule)
      (started rule tr
       ++ [logApp_debug (Clearing_elements (length (batch_of (scope rule) page)))])
      (batch_of (scope rule) page) evs
    /\ snd (executeProcessing C rule tr)
       = tr ++ [logApp_debug (Executing_rule (name rule));
                logApp_debug (Clearing_elements (length (batch_of (scope rule) page)))]
            ++ evs ++ [patchAttribute_call (rule_id rule) (ENTITY_TYPE_RETENTION_RULE C) p]
    /\ last_deleted_count p = length (batch_of (scope rule) page)
    /\ remaining_count p = globalCount (pageInfo page)
    /\ fst (executeProcessing C rule tr)
       = patchAttribute C
           (tr ++ [logApp_debug (Executing_rule (name rule));
                   logApp_debug (Clearing_elements (length (batch_of (scope rule) page)))]
               ++ evs)
           (rule_id rule) (ENTITY_TYPE_RETENTION_RULE C) p.
Proof.
  intros Hpage.
  destruct (executeProcessing_run C rule tr page Hpage) as (evs & Hrun & Hexec).
  cbv zeta in Hexec. rewrite Hexec. cbn [fst snd]. unfold started in *.
  exists evs. eexists. split; [exact Hrun|].
  rewrite <- !app_assoc. cbn [app]. repeat split.
Qed.

(** X1. A rule whose scope is none of [knowledge], [file] and [workbench]
    is a fatal error of its run: [executeProcessing] throws
    [Error("[Retention manager] Scope ... not existing for Retention Rule.")]
    right after its first debug line, before any deletion request and without
    patching the rule; [deleteElement] throws the same error without calling
    the store or the file storage. *)
Theorem unsupported_scope_is_fatal (rule : RetentionRule) (tr : list event) :
  supported_scope (scope rule) = false ->
  executeProcessing C rule tr
  = (inl (JsError ("[Retention manager] Scope " ++ scope rule
                   ++ " not existing for Retention Rule.")),
     tr ++ [logApp_debug (Executing_rule (name rule))])
  /\ forall nodeId nodeEntityType h,
       deleteElement C (scope rule) nodeId nodeEntityType h
       = (inl (JsError ("[Retention manager] Scope " ++ scope rule
                        ++ " not existing for Retention Rule.")), h).
Proof.
  unfold supported_scope. intros Hs.
  apply orb_false_iff in Hs as [Hs Hw]. apply orb_false_iff in Hs as [Hk Hf].
  split.
  - unfold executeProcessing, getElementsToDelete, fetch_page.
    rewrite Hk, Hf, Hw. reflexivity.
  - intros nodeId nodeEntityType h. unfold deleteElement.
    rewrite Hk, Hf, Hw. reflexivity.
Qed.

(** A run whose fetch throws stops there. *)
Lemma fetch_failure_run (rule : RetentionRule) (tr : list event)
    (e : error) :
  fetched C rule tr = inl e ->
  executeProcessing C rule tr
  = (inl e, tr ++ [logApp_debug (Executing_rule (name rule))]).
Proof.
  unfold fetched. intros Hfetch.
  pose proof (fetch_page_silent C (scope rule)
                (cutoff C rule (started rule tr)) (filters rule)
                (started rule tr)) as Hsilent.
  unfold executeProcessing, getElementsToDelete.
  unfold bind at 1. unfold emit at 1.
  unfold bind at 1. unfold observe at 1.
  unfold bind at 1. unfold bind at 1.
  fold (started rule tr).
  destruct (fetch_page C (scope rule) (cutoff C rule (started rule tr))
              (filters rule) (started rule tr)) as [r tr'].
  simpl in Hfetch, Hsilent. subst r tr'. reflexivity.
Qed.

(** X2. When fetching the candidates of a rule throws (the adapter, the
    conversion of the filters or [JSON.parse] of the rule's filters), the run
    throws the same exception: nothing is deleted and the rule is not
    patched. *)
Theorem fetch_failure_propagates (rule : RetentionRule) (tr : list event)
    (e : error) :
  fetched C rule tr = inl e ->
  executeProcessing C rule tr
  = (inl e, tr ++ [logApp_debug (Executing_rule (name rule))]).
Proof.
  intros Hfetch. exact (fetch_failure_run rule tr e Hfetch).
Qed.

(** X3. The deletion requests of a run, by scope: a [knowledge] rule only
    force-deletes in the knowledge store, by internal id and with the entity
    type, the elements of the page that pass the filter; a [file] rule only
    asks the file storage, by id, for the elements that pass the filter; a
    [workbench] rule asks the file storage, by id, for every element of the
    page.  The requests come in the order of the page. *)
Theorem deletion_requests_by_scope (rule : RetentionRule) (tr : list event)
    (page : Connection) :
  fetched C rule tr = inr page ->
  exists evs,
    snd (executeProcessing C rule tr) = tr ++ evs
    /\ (scope rule = "knowledge" ->
        filter is_delete_call evs
        = map (fun e => deleteElementById_call (internal_id (node e))
                                               (entity_type (node e)))
              (filter not_in_flight (edges page)))
    /\ (scope rule = "file" ->
        filter is_delete_call evs
        = map (fun e => deleteFile_call (id (node e)))
              (filter not_in_flight (edges page)))
    /\ (scope rule = "workbench" ->
        filter is_delete_call evs
        = map (fun e => deleteFile_call (id (node e))) (edges page)).
Proof.
  intros Hpage.
  destruct (run_events rule tr page Hpage) as (evs & p & Hrun & Hsnd & _).
  eexists. split; [exact Hsnd|].
  cbn [app filter is_delete_call]. rewrite filter_app. cbn [filter is_delete_call].
  rewrite app_nil_r, (batch_run_delete_calls C _ _ _ _ Hrun).
  unfold batch_of, delete_call.
  repeat split; intros ->; reflexivity.
Qed.

(** X4. The filters of a rule are only read for the scope [knowledge]: a
    [file] or [workbench] rule runs the same, event for event, whatever its
    filters are (they are neither parsed nor sent to the adapter). *)
Theorem file_rules_ignore_filters (rule : RetentionRule) (f : option string)
    (tr : list event) :
  scope rule = "file" \/ scope rule = "workbench" ->
  executeProcessing C (with_filters rule f) tr = executeProcessing C rule tr.
Proof.
  intros Hscope.
  unfold executeProcessing, getElementsToDelete, fetch_page, cutoff, with_filters.
  cbn [scope filters name max_retention retention_unit rule_id].
  destruct Hscope as [-> | ->]; reflexivity.
Qed.

Lemma patches_app (a b : list event) :
  patches (a ++ b) = patches a ++ patches b.
Proof.
  induction a as [|ev a IH]; [reflexivity|].
  destruct ev; simpl; now rewrite ?IH.
Qed.

Lemma batch_run_deleted_le (s : string) (tr : list event) (es : list Edge)
    (evs : list event) :
  batch_run C s tr es evs -> length (deleted_ids evs) <= length es.
Proof.
  induction 1 as [|tr e es turn rest Hturn _ IH]; [reflexivity|].
  rewrite deleted_ids_app, length_app.
  destruct Hturn; unfold delete_call; destruct (s =? "knowledge"); simpl; lia.
Qed.

Lemma batch_run_all_deleted (s : string) (tr : list event) (es : list Edge)
    (evs : list event) :
  (forall h e, deletion_answer C s h e = inr tt) ->
  batch_run C s tr es evs ->
  deleted_ids evs = map (fun e => id (node e)) es.
Proof.
  intros Hcalm. induction 1 as [|tr e es turn rest Hturn _ IH]; [reflexivity|].
  rewrite deleted_ids_app, IH.
  destruct Hturn as [_|err Hans]; [|rewrite Hcalm in Hans; discriminate].
  unfold delete_call; destruct (s =? "knowledge"); reflexivity.
Qed.

(** X5. The [last_deleted_count] a run persists is never below the number
    of deletions that returned, and when the deletion collaborator of the
    scope never throws it is exactly that number: every element of the batch
    is then logged as deleted, in order. *)
Theorem last_deleted_count_when_nothing_throws (rule : RetentionRule)
    (tr : list event) (page : Connection) :
  fetched C rule tr = inr page ->
  exists evs p,
    snd (executeProcessing C rule tr) = tr ++ evs
    /\ patches evs = [p]
    /\ length (deleted_ids evs) <= last_deleted_count p
    /\ ((forall h e, deletion_answer C (scope rule) h e = inr tt) ->
        deleted_ids evs = map (fun e => id (node e)) (batch_of (scope rule) page)
        /\ last_deleted_count p = length (deleted_ids evs)).
Proof.
  intros Hpage.
  destruct (run_events rule tr page Hpage) as (evs & p & Hrun & Hsnd & Hcount & _).
  eexists. exists p. split; [exact Hsnd|].
  cbn [app patches deleted_ids].
  rewrite patches_app, deleted_ids_app, (batch_run_patches C _ _ _ _ Hrun).
  cbn [app patches deleted_ids]. rewrite app_nil_r, Hcount.
  split; [reflexivity|]. split; [exact (batch_run_deleted_le _ _ _ _ Hrun)|].
  intros Hcalm. rewrite (batch_run_all_deleted _ _ _ _ Hcalm Hrun).
  split; [reflexivity|]. now rewrite length_map.
Qed.



(** *** The handler *)

Lemma for_each_app (A : Type) (body : A -> M event unit) (xs ys : list A)
    (tr : list event) :
  for_each body (xs ++ ys) tr
  = match for_each body xs tr with
    | (inr _, tr') => for_each body ys tr'
    | (inl e, tr') => (inl e, tr')
    end.
Proof.
  revert tr. induction xs as [|x xs IH]; intros tr; [reflexivity|].
  cbn [app for_each]. unfold bind.
  destruct (body x tr) as [[e|[]] tr1]; [reflexivity|apply IH].
Qed.

Lemma retentionHandler_loop (tr : list event) (rules : list RetentionRule) :
  findRetentionRulesToExecute C tr = inr rules ->
  retentionHandler C tr = for_each (rule_turn C) rules (handler_started rules tr).
Proof.
  intros Hfind. unfold retentionHandler, handler_started.
  unfold bind at 1. unfold query at 1. rewrite Hfind.
  unfold bind at 1. unfold emit at 1. reflexivity.
Qed.

(** What a rule leaves in the trace, whatever its outcome. *)
Lemma rule_turn_patched (rule : RetentionRule) (tr : list event) :
  exists evs,
    snd (rule_turn C rule tr) = tr ++ evs
    /\ ((patched_rules evs = [] /\ exists e, fst (rule_turn C rule tr) = inl e)
        \/ patched_rules evs = [rule_id rule]).
Proof.
  unfold rule_turn, bind, query.
  destruct (signal_aborted C tr) as [reason|].
  - exists []. rewrite app_nil_r. split; [reflexivity|]. left. split; [reflexivity|now eexists].
  - destruct (fetched C rule tr) as [e|page] eqn:Hfetch.
    + rewrite (fetch_failure_run rule tr e Hfetch).
      eexists. split; [reflexivity|]. left. split; [reflexivity|now eexists].
    + destruct (run_events rule tr page Hfetch) as (evs & p & Hrun & Hsnd & _).
      eexists. split; [exact Hsnd|]. right.
      cbn [app patched_rules]. rewrite patched_rules_app.
      now rewrite (batch_run_patched_rules _ _ _ _ Hrun).
Qed.

Lemma loop_patched (rules : list RetentionRule) :
  forall tr, exists evs,
    snd (for_each (rule_turn C) rules tr) = tr ++ evs
    /\ (exists k, patched_rules evs = map rule_id (firstn k rules))
    /\ (fst (for_each (rule_turn C) rules tr) = inr tt ->
        patched_rules evs = map rule_id rules).
Proof.
  induction rules as [|rule rules IH]; intros tr.
  - exists []. rewrite app_nil_r. repeat split. now exists 0.
  - destruct (rule_turn_patched rule tr) as (evs1 & Hsnd & Hpatched).
    cbn [for_each]. unfold bind.
    destruct (rule_turn C rule tr) as [[e|[]] tr1]; cbn [fst snd] in *; subst tr1.
    + exists evs1. split; [reflexivity|]. split; [|discriminate].
      destruct Hpatched as [[-> _]| ->]; [now exists 0|now exists 1].
    + destruct Hpatched as [[_ [e He]]|Hone]; [discriminate|].
      destruct (IH (tr ++ evs1)) as (evs2 & Hsnd2 & (k & Hk) & Hall).
      exists (evs1 ++ evs2). rewrite Hsnd2, app_assoc.
      split; [reflexivity|]. rewrite patched_rules_app, Hone. split.
      * exists (S k). cbn [firstn map app]. now rewrite Hk.
      * intros Hok. cbn [map app]. now rewrite (Hall Hok).
Qed.

(** X7. The handler patches the rules in the order of the list, each at
    most once: the rules patched by a run of [retentionHandler] are a prefix
    of the rules to execute, and all of them when the handler returns. *)
Theorem handler_patches_rules_in_order (tr : list event)
    (rules : list RetentionRule) :
  findRetentionRulesToExecute C tr = inr rules ->
  exists evs,
    snd (retentionHandler C tr) = tr ++ evs
    /\ (exists k, patched_rules evs = map rule_id (firstn k rules))
    /\ (fst (retentionHandler C tr) = inr tt ->
        patched_rules evs = map rule_id rules).
Proof.
  intros Hfind. rewrite (retentionHandler_loop tr rules Hfind).
  destruct (loop_patched rules (handler_started rules tr))
    as (evs & Hsnd & Hprefix & Hall).
  unfold handler_started in *.
  exists ([logApp_debug (Execution_for_rules (length rules))] ++ evs).
  rewrite Hsnd, app_assoc. split; [reflexivity|].
  cbn [app patched_rules]. split; assumption.
Qed.

(** X8. The lock is checked before every rule: when the signal is aborted
    at the moment a rule is about to start, the handler throws the abort
    reason there, and neither that rule nor the rules after it leave anything
    in the trace (no fetch result is used, nothing is deleted, nothing is
    patched). *)
Theorem abort_stops_at_rule_boundary (tr : list event)
    (done : list RetentionRule) (rule : RetentionRule)
    (rest : list RetentionRule) (tr1 : list event) (reason : error) :
  findRetentionRulesToExecute C tr = inr (done ++ rule :: rest) ->
  for_each (rule_turn C) done (handler_started (done ++ rule :: rest) tr)
  = (inr tt, tr1) ->
  signal_aborted C tr1 = Some reason ->
  retentionHandler C tr = (inl reason, tr1).
Proof.
  intros Hfind Hdone Habort.
  rewrite (retentionHandler_loop tr _ Hfind), for_each_app, Hdone.
  cbn [for_each]. unfold rule_turn, bind, query. now rewrite Habort.
Qed.

(** X9. A rule whose run throws (its fetch or its patch) aborts the cycle:
    the handler throws the same exception and the rules after it are not
    started. *)
Theorem failing_rule_aborts_the_cycle (tr : list event)
    (done : list RetentionRule) (rule : RetentionRule)
    (rest : list RetentionRule) (tr1 tr2 : list event) (e : error) :
  findRetentionRulesToExecute C tr = inr (done ++ rule :: rest) ->
  for_each (rule_turn C) done (handler_started (done ++ rule :: rest) tr)
  = (inr tt, tr1) ->
  signal_aborted C tr1 = None ->
  executeProcessing C rule tr1 = (inl e, tr2) ->
  retentionHandler C tr = (inl e, tr2).
Proof.
  intros Hfind Hdone Hlock Hrule.
  rewrite (retentionHandler_loop tr _ Hfind), for_each_app, Hdone.
  cbn [for_each]. unfold rule_turn, bind at 1 2, query. now rewrite Hlock, Hrule.
Qed.

End More.

Import Fixtures.

Lemma unsupported_scope_is_fatal_witness :
  supported_scope "settings" = false
  /\ executeProcessing R.store (R.rule_for "settings") []
     = (inl (JsError "[Retention manager] Scope settings not existing for Retention Rule."),
        [logApp_debug (Executing_rule "settings cleanup")]).
Proof.
  split; [reflexivity|].
  exact (proj1 (unsupported_scope_is_fatal R.store (R.rule_for "settings") [] eq_refl)).
Defined.

Lemma fetch_failure_propagates_witness :
  fetched R.unreachable_store (R.rule_for "knowledge") []
  = inl (ExternalError "index unreachable")
  /\ executeProcessing R.unreachable_store (R.rule_for "knowledge") []
     = (inl (ExternalError "index unreachable"),
        [logApp_debug (Executing_rule "knowledge cleanup")]).
Proof.
  split; [reflexivity|].
  exact (fetch_failure_propagates R.unreachable_store (R.rule_for "knowledge") []
           (ExternalError "index unreachable") eq_refl).
Defined.

Lemma deletion_requests_by_scope_witness :
  fetched R.store (R.rule_for "file") [] = inr R.global_page
  /\ exists evs,
       snd (executeProcessing R.store (R.rule_for "file") []) = [] ++ evs
       /\ filter is_delete_call evs
          = [deleteFile_call "old.csv"; deleteFile_call "locked.pdf"].
Proof.
  split; [reflexivity|].
  destruct (deletion_requests_by_scope R.store (R.rule_for "file") []
              R.global_page eq_refl) as (evs & Hsnd & _ & Hfile & _).
  exists evs. split; [exact Hsnd|exact (Hfile eq_refl)].
Defined.

Lemma file_rules_ignore_filters_witness :
  (scope (R.rule_for "workbench") = "file" \/ scope (R.rule_for "workbench") = "workbench")
  /\ executeProcessing R.store
       (with_filters (R.rule_for "workbench") (Some "entity_type:Report")) []
     = executeProcessing R.store (R.rule_for "workbench") [].
Proof.
  split; [right; reflexivity|].
  apply (file_rules_ignore_filters R.store (R.rule_for "workbench")).
  right; reflexivity.
Defined.

Lemma last_deleted_count_when_nothing_throws_witness :
  fetched R.scheduled_store (R.rule_for "file") [] = inr R.global_page
  /\ (forall h e, deletion_answer R.scheduled_store "file" h e = inr tt)
  /\ exists evs p,
       snd (executeProcessing R.scheduled_store (R.rule_for "file") []) = [] ++ evs
       /\ patches evs = [p]
       /\ deleted_ids evs = ["old.csv"; "locked.pdf"]
       /\ last_deleted_count p = 2.
Proof.
  split; [reflexivity|]. split; [reflexivity|].
  destruct (last_deleted_count_when_nothing_throws R.scheduled_store
              (R.rule_for "file") [] R.global_page eq_refl)
    as (evs & p & Hsnd & Hp & _ & Hcalm).
  destruct (Hcalm (fun _ _ => eq_refl)) as [Hids Hcount].
  exists evs, p. repeat split; [exact Hsnd|exact Hp|exact Hids|].
  rewrite Hcount, Hids. reflexivity.
Defined.



Lemma handler_patches_rules_in_order_witness :
  findRetentionRulesToExecute R.scheduled_store []
  = inr [R.rule_for "file"; R.rule_for "workbench"]
  /\ exists evs,
       snd (retentionHandler R.scheduled_store []) = [] ++ evs
       /\ exists k,
            patched_rules evs
            = map rule_id (firstn k [R.rule_for "file"; R.rule_for "workbench"]).
Proof.
  split; [reflexivity|].
  destruct (handler_patches_rules_in_order R.scheduled_store []
              [R.rule_for "file"; R.rule_for "workbench"] eq_refl)
    as (evs & Hsnd & Hprefix & _).
  exists evs. split; [exact Hsnd|exact Hprefix].
Defined.

Lemma abort_stops_at_rule_boundary_witness :
  retentionHandler R.scheduled_store []
  = (inl (ExternalError "AbortError"),
     [logApp_debug (Execution_for_rules 2);
      logApp_debug (Executing_rule "file cleanup");
      logApp_debug (Clearing_elements 2);
      deleteFile_call "old.csv";
      logApp_debug (Deleting_after "old.csv" "a month");
      deleteFile_call "locked.pdf";
      logApp_debug (Deleting_after "locked.pdf" "a month");
      patchAttribute_call "rule-file" "RetentionRule"
        {| last_execution_date := "2024-02-01T00:00:00.000Z";
           remaining_count := 2;
           last_deleted_count := 2 |}]).
Proof.
  apply (abort_stops_at_rule_boundary R.scheduled_store []
           [R.rule_for "file"] (R.rule_for "workbench") []).
  - reflexivity.
  - vm_compute. reflexivity.
  - reflexivity.
Defined.

Lemma failing_rule_aborts_the_cycle_witness :
  retentionHandler R.unreachable_store []
  = (inl (ExternalError "index unreachable"),
     [logApp_debug (Execution_for_rules 2);
      logApp_debug (Executing_rule "knowledge cleanup")]).
Proof.
  apply (failing_rule_aborts_the_cycle R.unreachable_store []
           [] (R.rule_for "knowledge") [R.rule_for "file"]
           [logApp_debug (Execution_for_rules 2)]).
  - reflexivity.
  - reflexivity.
  - reflexivity.
  - reflexivity.
Defined.

End RetentionMore.

(** * Further properties of the background-task gate and factory *)

Module TaskMore.
Import BackgroundTask.
Import TaskFacts.

Section More.
Variable C : Collaborators.

Lemma ensure_ok (b : bool) (e : error) : ensure b e = inr tt <-> b = true.
Proof. destruct b; simpl; split; congruence. Qed.

Lemma ensure_cases (b : bool) (e : error) :
  ensure b e = inr tt \/ ensure b e = inl e.
Proof. destruct b; [now left|now right]. Qed.

Lemma scope_is_not (s : option string) (x : string) :
  s <> Some x ->
  match s with Some s' => s' =? x | None => false end = false.
Proof.
  destruct s as [s'|]; [|reflexivity]. intros Hne.
  apply String.eqb_neq. congruence.
Qed.

(** The two capability checks of the scope Knowledge come first. *)
Lemma check_knowledge_denied (user : User) (input : Input) (taskType : string)
    (fs : list Filter) :
  baseFilters C input = inr fs ->
  isUserHasCapability C user (KNOWLEDGE_UPDATE C) = false
  \/ (existsb isDeleteRestrictedAction (actions input) = true
      /\ isUserHasCapability C user (KNOWLEDGE_DELETE C) = false) ->
  checkActionValidity C user input (Some Scope_Knowledge) taskType
  = inl (ForbiddenAccess None).
Proof.
  intros Hfs Hcaps. unfold checkActionValidity.
  rewrite Hfs. cbn [exc_bind]. cbv beta zeta.
  change (Scope_Knowledge =? Scope_Settings) with false.
  change (Scope_Knowledge =? Scope_Knowledge) with true. cbv iota.
  destruct (isUserHasCapability C user (KNOWLEDGE_UPDATE C)); [|reflexivity].
  cbn [ensure exc_bind]. rewrite asks_for_deletion.
  destruct Hcaps as [Hupdate|[Hask Hdelete]]; [discriminate|].
  now rewrite Hask, Hdelete.
Qed.

Lemma knowledge_capabilities_dec (user : User) (input : Input) :
  knowledge_capabilities C user input
  \/ (isUserHasCapability C user (KNOWLEDGE_UPDATE C) = false
      \/ (existsb isDeleteRestrictedAction (actions input) = true
          /\ isUserHasCapability C user (KNOWLEDGE_DELETE C) = false)).
Proof.
  unfold knowledge_capabilities.
  destruct (isUserHasCapability C user (KNOWLEDGE_UPDATE C)); [|now right; left].
  destruct (existsb isDeleteRestrictedAction (actions input)).
  - destruct (isUserHasCapability C user (KNOWLEDGE_DELETE C)).
    + left. now split.
    + right. right. now split.
  - left. split; [reflexivity|discriminate].
Qed.

Lemma createListTask_denied (user : User) (input : Input) (tr : list event)
    (e : error) :
  checkActionValidity C user input (scope input) TASK_TYPE_LIST = inl e ->
  createListTask C user input tr = (inl e, tr).
Proof.
  intros Hdeny. unfold createListTask, bind, query. now rewrite Hdeny.
Qed.

Lemma check_other_scope (user : User) (input : Input)
    (scope : option string) (taskType : string) (fs : list Filter) :
  baseFilters C input = inr fs ->
  scope <> Some Scope_Settings ->
  scope <> Some Scope_Knowledge ->
  scope <> Some Scope_User ->
  scope <> Some Scope_Import ->
  checkActionValidity C user input scope taskType
  = inl (UnsupportedError
           "A background task should be of scope: SETTINGS, KNOWLEDGE, USER, IMPORT.").
Proof.
  intros Hfs Hs Hk Hu Hi. unfold checkActionValidity.
  rewrite Hfs. cbn [exc_bind]. cbv beta zeta.
  rewrite (scope_is_not scope _ Hs), (scope_is_not scope _ Hk),
    (scope_is_not scope _ Hu), (scope_is_not scope _ Hi).
  reflexivity.
Qed.

(** An allowed request has one of the four scopes. *)
Lemma allowed_scope (user : User) (input : Input) (scope : option string)
    (taskType : string) :
  checkActionValidity C user input scope taskType = inr tt ->
  scope = Some Scope_Settings \/ scope = Some Scope_Knowledge
  \/ scope = Some Scope_User \/ scope = Some Scope_Import.
Proof.
  intros Hok.
  destruct (baseFilters C input) as [e|fs] eqn:Hfs.
  { unfold checkActionValidity in Hok. rewrite Hfs in Hok. discriminate. }
  assert (Hdec : forall x, scope = Some x \/ scope <> Some x).
  { intros x. destruct scope as [s|]; [|right; discriminate].
    destruct (string_dec s x) as [->|Hne]; [now left|right; congruence]. }
  destruct (Hdec Scope_Settings) as [?|Hs]; [tauto|].
  destruct (Hdec Scope_Knowledge) as [?|Hk]; [tauto|].
  destruct (Hdec Scope_User) as [?|Hu]; [tauto|].
  destruct (Hdec Scope_Import) as [?|Hi]; [tauto|].
  rewrite (check_other_scope user input scope taskType fs Hfs Hs Hk Hu Hi) in Hok.
  discriminate.
Qed.

(** X10. A scope that is none of SETTINGS, KNOWLEDGE, USER and IMPORT (or
    no scope at all) is refused with an unsupported-operation error, whatever
    the principal's capabilities (on an input whose filters, if any,
    deserialize). *)
Theorem invalid_scope_unsupported (user : User) (input : Input)
    (scope : option string) (taskType : string) (fs : list Filter) :
  baseFilters C input = inr fs ->
  scope <> Some Scope_Settings ->
  scope <> Some Scope_Knowledge ->
  scope <> Some Scope_User ->
  scope <> Some Scope_Import ->
  checkActionValidity C user input scope taskType
  = inl (UnsupportedError
           "A background task should be of scope: SETTINGS, KNOWLEDGE, USER, IMPORT.").
Proof.
  intros Hfs Hs Hk Hu Hi.
  exact (check_other_scope user input scope taskType fs Hfs Hs Hk Hu Hi).
Qed.

(** X11. The filters are deserialized before anything else: when
    [JSON.parse] throws on the filters of an input, [checkActionValidity]
    throws the same exception for every scope, task type and principal, and
    [createListTask] throws it without emitting or persisting anything. *)
Theorem malformed_filters_throw_first (user : User) (input : Input)
    (baseFilterString : string) (e : error) :
  filters input = Some baseFilterString ->
  baseFilterString <> "" ->
  JSON_parse C baseFilterString = inl e ->
  (forall scope taskType,
     checkActionValidity C user input scope taskType = inl e)
  /\ forall tr, createListTask C user input tr = (inl e, tr).
Proof.
  intros Hfilters Hne Hparse.
  assert (Hbase : baseFilters C input = inl e).
  { unfold baseFilters. rewrite Hfilters. unfold truthy.
    apply String.eqb_neq in Hne. rewrite Hne. cbn [negb]. now rewrite Hparse. }
  assert (Hcheck : forall scope taskType,
             checkActionValidity C user input scope taskType = inl e).
  { intros scope taskType. unfold checkActionValidity. now rewrite Hbase. }
  split; [exact Hcheck|].
  intros tr. apply createListTask_denied. apply Hcheck.
Qed.

(** X12. For the scope Settings the gate is the capability to set labels
    and nothing else: the request is allowed exactly when the principal holds
    it, whatever the actions, the targets and the task type, and is denied
    with a forbidden error otherwise (on an input whose filters, if any,
    deserialize). *)
Theorem settings_gate (user : User) (input : Input) (taskType : string)
    (fs : list Filter) :
  baseFilters C input = inr fs ->
  (checkActionValidity C user input (Some Scope_Settings) taskType = inr tt
   <-> isUserHasCapability C user (SETTINGS_SETLABELS C) = true)
  /\ (isUserHasCapability C user (SETTINGS_SETLABELS C) = false ->
      checkActionValidity C user input (Some Scope_Settings) taskType
      = inl (ForbiddenAccess None)).
Proof.
  intros Hfs.
  assert (Hcheck : checkActionValidity C user input (Some Scope_Settings) taskType
                   = ensure (isUserHasCapability C user (SETTINGS_SETLABELS C))
                            (ForbiddenAccess None)).
  { unfold checkActionValidity. rewrite Hfs. reflexivity. }
  rewrite Hcheck. split; [apply ensure_ok|]. now intros ->.
Qed.

(** X13. For the scopes Knowledge and Import the capability checks come
    before any look at the targets or the task type: without the capability
    to update knowledge, or with a DELETE, RESTORE or COMPLETE_DELETE action
    and without the capability to delete knowledge, a Knowledge request is
    denied with a forbidden error; without the import capability an Import
    request is (on an input whose filters, if any, deserialize). *)
Theorem capabilities_are_checked_first (user : User) (input : Input)
    (taskType : string) (fs : list Filter) :
  baseFilters C input = inr fs ->
  (isUserHasCapability C user (KNOWLEDGE_UPDATE C) = false ->
   checkActionValidity C user input (Some Scope_Knowledge) taskType
   = inl (ForbiddenAccess None))
  /\ (forall a,
        In a (actions input) ->
        a = ACTION_TYPE_DELETE \/ a = ACTION_TYPE_RESTORE
        \/ a = ACTION_TYPE_COMPLETE_DELETE ->
        isUserHasCapability C user (KNOWLEDGE_DELETE C) = false ->
        checkActionValidity C user input (Some Scope_Knowledge) taskType
        = inl (ForbiddenAccess None))
  /\ (isUserHasCapability C user (KNOWLEDGE_KNASKIMPORT C) = false ->
      checkActionValidity C user input (Some Scope_Import) taskType
      = inl (ForbiddenAccess None)).
Proof.
  intros Hfs. split; [|split].
  - intros Hupdate. apply (check_knowledge_denied user input taskType fs Hfs).
    now left.
  - intros a Ha Hkind Hdelete.
    destruct (isUserHasCapability C user (KNOWLEDGE_UPDATE C)) eqn:Hupdate.
    + apply (check_knowledge_denied user input taskType fs Hfs).
      right. split; [|exact Hdelete].
      apply existsb_exists. exists a. split; [exact Ha|].
      destruct Hkind as [-> | [-> | ->]]; reflexivity.
    + apply (check_knowledge_denied user input taskType fs Hfs). now left.
  - intros Himport. rewrite (check_import C user input taskType fs Hfs), Himport.
    reflexivity.
Qed.

(** *** The target checks, as propositions *)



Lemma areParentTypesKnowledge_spec (parentTypes : list (list string)) :
  areParentTypesKnowledge C parentTypes = true
  <-> forall ps, In ps parentTypes -> forall p, In p ps -> isKnowledge C p = true.
Proof.
  unfold areParentTypesKnowledge. rewrite forallb_forall. split.
  - intros H ps Hps p Hp. apply H. apply in_concat. now exists ps.
  - intros H p Hp. apply in_concat in Hp as (ps & Hps & Hp). now apply (H ps).
Qed.

Lemma target_verdict (del kn voc : bool) :
  negb ((negb del && negb kn) || voc) = true
  <-> voc = false /\ (del = true \/ kn = true).
Proof. destruct del, kn, voc; simpl; intuition congruence. Qed.

Lemma forallb_resolved (A : Type) (P : A -> bool) (objects : list (option A)) :
  includes_undefined objects = false ->
  forallb (fun o => match o with Some o' => P o' | None => false end) objects
  = forallb P (resolved objects).
Proof.
  induction objects as [|[o|] os IH]; simpl; [reflexivity| |discriminate].
  intros Hdef. now rewrite (IH Hdef).
Qed.


(** X15. For the scope Knowledge, a LIST task and a principal with the
    required capabilities (on an input whose filters, if any, deserialize),
    the request is allowed exactly when every id resolves, no resolved object
    is of the vocabulary type, and either every resolved object is a delete
    operation or every parent type of every resolved object is knowledge; it
    is denied with [ForbiddenAccess('The targeted ids are not knowledge.')]
    otherwise. *)
Theorem knowledge_list_gate (user : User) (input : Input) (fs : list Filter) :
  baseFilters C input = inr fs ->
  knowledge_capabilities C user input ->
  (checkActionValidity C user input (Some Scope_Knowledge) TASK_TYPE_LIST = inr tt
   <-> (~ In None (map (internalLoadById C user) (ids input))
        /\ (forall o, In (Some o) (map (internalLoadById C user) (ids input)) ->
                      entity_type o <> ENTITY_TYPE_VOCABULARY C)
        /\ ((forall o, In (Some o) (map (internalLoadById C user) (ids input)) ->
                       entity_type o = ENTITY_TYPE_DELETE_OPERATION C)
            \/ (forall o, In (Some o) (map (internalLoadById C user) (ids input)) ->
                 forall p, In p (parent_types o) -> isKnowledge C p = true))))
  /\ (checkActionValidity C user input (Some Scope_Knowledge) TASK_TYPE_LIST = inr tt
      \/ checkActionValidity C user input (Some Scope_Knowledge) TASK_TYPE_LIST
         = inl (ForbiddenAccess not_knowledge_message)).
Proof.
  intros Hfs Hcaps.
  rewrite (check_knowledge C user input TASK_TYPE_LIST fs Hfs Hcaps).
  change (TASK_TYPE_LIST =? TASK_TYPE_QUERY) with false.
  change (TASK_TYPE_LIST =? TASK_TYPE_LIST) with true. cbv iota zeta.
  set (objects := map (internalLoadById C user) (ids input)).
  split; [|apply ensure_cases].
  rewrite ensure_ok.
  destruct (includes_undefined objects) eqn:Hundef.
  - apply includes_undefined_In in Hundef. cbn [negb]. split; [discriminate|tauto].
  - rewrite (forallb_resolved _ (fun o => entity_type o =? ENTITY_TYPE_DELETE_OPERATION C)
               objects Hundef).
    rewrite target_verdict, <- Bool.not_true_iff_false.
    rewrite existsb_exists, forallb_forall, areParentTypesKnowledge_spec.
    assert (Hdef : ~ In None objects).
    { rewrite <- includes_undefined_In. congruence. }
    split.
    + intros [Hvoc Hkind]. split; [exact Hdef|]. split.
      * intros o Ho Heq. apply Hvoc. exists o. split; [now apply resolved_In|].
        now apply String.eqb_eq.
      * destruct Hkind as [Hdel|Hkn]; [left|right].
        -- intros o Ho. apply String.eqb_eq, Hdel. now apply resolved_In.
        -- intros o Ho p Hp. apply (Hkn (parent_types o)); [|exact Hp].
           apply in_map. now apply resolved_In.
    + intros (_ & Hvoc & Hkind). split.
      * intros (o & Ho & Heq). apply resolved_In in Ho.
        apply String.eqb_eq in Heq. now apply (Hvoc o).
      * destruct Hkind as [Hdel|Hkn]; [left|right].
        -- intros o Ho. apply String.eqb_eq, Hdel. now apply resolved_In.
        -- intros ps Hps p Hp. apply in_map_iff in Hps as (o & <- & Ho).
           apply resolved_In in Ho. now apply (Hkn o).
Qed.



(** X17. A task type other than QUERY and LIST is refused with
    [UnsupportedError('A background task should be of type query or list.')]
    for the scope User, and for the scope Knowledge once the capability
    checks have passed (on an input whose filters, if any, deserialize). *)
Theorem other_task_types_unsupported (user : User) (input : Input)
    (taskType : string) (fs : list Filter) :
  baseFilters C input = inr fs ->
  taskType <> TASK_TYPE_QUERY ->
  taskType <> TASK_TYPE_LIST ->
  checkActionValidity C user input (Some Scope_User) taskType
  = inl (UnsupportedError bad_type_message)
  /\ (knowledge_capabilities C user input ->
      checkActionValidity C user input (Some Scope_Knowledge) taskType
      = inl (UnsupportedError bad_type_message)).
Proof.
  intros Hfs Hq Hl.
  apply String.eqb_neq in Hq. apply String.eqb_neq in Hl. split.
  - unfold checkActionValidity. rewrite Hfs. cbn [exc_bind]. cbv beta zeta.
    change (Scope_User =? Scope_Settings) with false.
    change (Scope_User =? Scope_Knowledge) with false.
    change (Scope_User =? Scope_User) with true. cbv iota.
    now rewrite Hq, Hl.
  - intros Hcaps.
    rewrite (check_knowledge C user input taskType fs Hfs Hcaps). now rewrite Hq, Hl.
Qed.

(** *** The factory *)

(** A run of [createListTask] that got past the gate, step by step. *)
Lemma createListTask_allowed (user : User) (input : Input) (tr : list event) :
  checkActionValidity C user input (scope input) TASK_TYPE_LIST = inr tt ->
  exists task,
    createDefaultTask C user input TASK_TYPE_LIST (length (ids input)) (scope input) tr
    = (inr task, tr)
    /\ let listTask :=
         {| task := task; task_actions := actions input; task_ids := ids input |} in
       createListTask C user input tr
       = match publishUserAction C tr listTask with
         | inl e => (inl e, tr ++ [creation_audit C user listTask])
         | inr _ =>
             match elIndex C (tr ++ [creation_audit C user listTask])
                     (INDEX_INTERNAL_OBJECTS C) listTask with
             | inl e => (inl e, tr ++ [creation_audit C user listTask;
                                       elIndex_call (INDEX_INTERNAL_OBJECTS C) listTask])
             | inr _ => (inr listTask,
                         tr ++ [creation_audit C user listTask;
                                elIndex_call (INDEX_INTERNAL_OBJECTS C) listTask])
             end
         end.
Proof.
  intros Hok. eexists. split; [reflexivity|]. cbv zeta.
  unfold createListTask, createDefaultTask.
  unfold bind, query, observe, call, ret. rewrite Hok.
  destruct (publishUserAction C tr _) as [e|[]]; [reflexivity|].
  destruct (elIndex C _ _ _) as [e|[]]; now rewrite <- app_assoc.
Qed.

Lemma createListTask_passed_gate (user : User) (input : Input)
    (tr tr' : list event) (listTask : ListTask) :
  createListTask C user input tr = (inr listTask, tr') ->
  checkActionValidity C user input (scope input) TASK_TYPE_LIST = inr tt.
Proof.
  unfold createListTask, bind, query.
  destruct (checkActionValidity C user input (scope input) TASK_TYPE_LIST) as [e|[]];
    [discriminate|reflexivity].
Qed.

(** X18. The record of a created list task: it carries the ids and the
    actions of the input as they are, expects as many elements as there are
    ids, is of type LIST, not completed, with no element processed and no
    error yet; its initiator is the internal id of the principal and its id
    and internal id are the same generated id. *)
Theorem created_list_task_record (user : User) (input : Input)
    (tr tr' : list event) (listTask : ListTask) :
  createListTask C user input tr = (inr listTask, tr') ->
  task_ids listTask = ids input
  /\ task_actions listTask = actions input
  /\ task_expected_number (task listTask) = length (ids input)
  /\ task_type (task listTask) = TASK_TYPE_LIST
  /\ completed (task listTask) = false
  /\ task_processed_number (task listTask) = 0
  /\ errors (task listTask) = []
  /\ initiator_id (task listTask) = internal_id user
  /\ task_id (task listTask) = task_internal_id (task listTask)
  /\ task_entity_type (task listTask) = ENTITY_TYPE_BACKGROUND_TASK C.
Proof.
  intros Hrun.
  pose proof (createListTask_passed_gate user input tr tr' listTask Hrun) as Hok.
  destruct (createListTask_allowed user input tr Hok) as (task & Htask & Hsteps).
  cbv zeta in Hsteps. rewrite Hsteps in Hrun.
  unfold createDefaultTask, bind, observe, ret in Htask. injection Htask as <-.
  destruct (publishUserAction C tr _) as [e|[]]; [discriminate|].
  destruct (elIndex C _ _ _) as [e|[]]; [discriminate|].
  injection Hrun as <- _. repeat split.
Qed.

(** X19. The rights of a created list task: its scope is the scope of the
    input, one of the four, with exactly one authorized authority, the
    capability of that scope; the principal is its only authorized member,
    with admin rights, for the scopes SETTINGS, KNOWLEDGE and USER, and a
    task of scope IMPORT has no authorized member. *)
Theorem created_list_task_rights (user : User) (input : Input)
    (tr tr' : list event) (listTask : ListTask) :
  createListTask C user input tr = (inr listTask, tr') ->
  task_scope (task listTask) = scope input
  /\ ((scope input = Some Scope_Settings
       /\ authorized_authorities (task listTask) = Some [SETTINGS_SETLABELS C]
       /\ authorized_members (task listTask)
          = Some [{| member_id := id user;
                     access_right := MEMBER_ACCESS_RIGHT_ADMIN C |}])
      \/ (scope input = Some Scope_Knowledge
          /\ authorized_authorities (task listTask) = Some [KNOWLEDGE_KNUPDATE C]
          /\ authorized_members (task listTask)
             = Some [{| member_id := id user;
                        access_right := MEMBER_ACCESS_RIGHT_ADMIN C |}])
      \/ (scope input = Some Scope_User
          /\ authorized_authorities (task listTask) = Some [SETTINGS_SET_ACCESSES C]
          /\ authorized_members (task listTask)
             = Some [{| member_id := id user;
                        access_right := MEMBER_ACCESS_RIGHT_ADMIN C |}])
      \/ (scope input = Some Scope_Import
          /\ authorized_authorities (task listTask) = Some [KNOWLEDGE_KNASKIMPORT C]
          /\ authorized_members (task listTask) = Some [])).
Proof.
  intros Hrun.
  pose proof (createListTask_passed_gate user input tr tr' listTask Hrun) as Hok.
  pose proof (allowed_scope user input (scope input) TASK_TYPE_LIST Hok) as Hscope.
  destruct (createListTask_allowed user input tr Hok) as (task & Htask & Hsteps).
  cbv zeta in Hsteps. rewrite Hsteps in Hrun.
  unfold createDefaultTask, bind, observe, ret in Htask. injection Htask as <-.
  destruct (publishUserAction C tr _) as [e|[]]; [discriminate|].
  destruct (elIndex C _ _ _) as [e|[]]; [discriminate|].
  injection Hrun as <- _. cbn [task task_scope authorized_authorities authorized_members].
  destruct Hscope as [Hs|[Hs|[Hs|Hs]]]; rewrite Hs; split; try reflexivity.
  - left. repeat split.
  - right; left. repeat split.
  - right; right; left. repeat split.
  - right; right; right. repeat split.
Qed.

(** X20. When a creation fails after the gate has allowed it, either the
    audit emission threw and the task was never sent to the index, or the
    audit event had been emitted and it is the indexing that threw: a task is
    never indexed without its audit event. *)
Theorem creation_failure_after_gate (user : User) (input : Input)
    (tr tr' : list event) (e : error) :
  checkActionValidity C user input (scope input) TASK_TYPE_LIST = inr tt ->
  createListTask C user input tr = (inl e, tr') ->
  exists listTask,
    (publishUserAction C tr listTask = inl e
     /\ tr' = tr ++ [creation_audit C user listTask])
    \/ (publishUserAction C tr listTask = inr tt
        /\ elIndex C (tr ++ [creation_audit C user listTask])
             (INDEX_INTERNAL_OBJECTS C) listTask = inl e
        /\ tr' = tr ++ [creation_audit C user listTask;
                        elIndex_call (INDEX_INTERNAL_OBJECTS C) listTask]).
Proof.
  intros Hok Hrun.
  destruct (createListTask_allowed user input tr Hok) as (task & _ & Hsteps).
  cbv zeta in Hsteps. rewrite Hsteps in Hrun.
  exists {| task := task; task_actions := actions input; task_ids := ids input |}.
  destruct (publishUserAction C tr _) as [e1|[]].
  - injection Hrun as <- <-. left. split; reflexivity.
  - destruct (elIndex C _ _ _) as [e2|[]]; [|discriminate].
    injection Hrun as <- <-. right. repeat split.
Qed.

(** X21. A list task of scope Knowledge with an id that does not resolve
    is denied with a forbidden error before anything is written: no audit
    event is emitted and no record is indexed, whatever the principal's
    capabilities (on an input whose filters, if any, deserialize). *)
Theorem unresolvable_id_writes_nothing (user : User) (input : Input)
    (fs : list Filter) (tr : list event) :
  baseFilters C input = inr fs ->
  scope input = Some Scope_Knowledge ->
  In None (map (internalLoadById C user) (ids input)) ->
  exists message,
    createListTask C user input tr = (inl (ForbiddenAccess message), tr).
Proof.
  intros Hfs Hscope Hnone.
  destruct (knowledge_capabilities_dec user input) as [Hcaps|Hdenied].
  - exists not_knowledge_message. apply createListTask_denied. rewrite Hscope.
    rewrite (check_knowledge C user input TASK_TYPE_LIST fs Hfs Hcaps).
    change (TASK_TYPE_LIST =? TASK_TYPE_QUERY) with false.
    change (TASK_TYPE_LIST =? TASK_TYPE_LIST) with true. cbv iota zeta.
    apply includes_undefined_In in Hnone. now rewrite Hnone.
  - exists None. apply createListTask_denied. rewrite Hscope.
    exact (check_knowledge_denied user input TASK_TYPE_LIST fs Hfs Hdenied).
Qed.

(** X22. A creation goes through when nothing stands in its way: if the
    gate allows the request and the audit listener and the index answer, then
    [createListTask] returns a task, having emitted the audit event of that
    task and then sent the same task to the internal-objects index, and
    nothing else. *)
Theorem allowed_creation_returns (user : User) (input : Input) (tr : list event) :
  checkActionValidity C user input (scope input) TASK_TYPE_LIST = inr tt ->
  (forall listTask, publishUserAction C tr listTask = inr tt) ->
  (forall h listTask, elIndex C h (INDEX_INTERNAL_OBJECTS C) listTask = inr tt) ->
  exists listTask,
    createListTask C user input tr
    = (inr listTask,
       tr ++ [creation_audit C user listTask;
              elIndex_call (INDEX_INTERNAL_OBJECTS C) listTask]).
Proof.
  intros Hok Hpublish Hindex.
  destruct (createListTask_allowed user input tr Hok) as (task & _ & Hsteps).
  cbv zeta in Hsteps. rewrite Hsteps, Hpublish, Hindex. now eexists.
Qed.

End More.

Import Fixtures.

Lemma allowed_creation_returns_witness :
  checkActionValidity T.platform T.alice (T.request "USER" ["DELETE"] None ["n1"])
    (Some "USER") TASK_TYPE_LIST = inr tt
  /\ exists listTask,
       createListTask T.platform T.alice (T.request "USER" ["DELETE"] None ["n1"]) []
       = (inr listTask,
          [creation_audit T.platform T.alice listTask;
           elIndex_call "opencti_internal_objects" listTask]).
Proof.
  split; [reflexivity|].
  apply (allowed_creation_returns T.platform T.alice
           (T.request "USER" ["DELETE"] None ["n1"]) []).
  - reflexivity.
  - intros listTask. reflexivity.
  - intros h listTask. reflexivity.
Defined.

Lemma invalid_scope_unsupported_witness :
  checkActionValidity T.platform T.admin (T.request "DASHBOARD" ["DELETE"] None [])
    (Some "DASHBOARD") TASK_TYPE_LIST
  = inl (UnsupportedError
           "A background task should be of scope: SETTINGS, KNOWLEDGE, USER, IMPORT.").
Proof.
  apply (invalid_scope_unsupported T.platform T.admin
           (T.request "DASHBOARD" ["DELETE"] None []) (Some "DASHBOARD")
           TASK_TYPE_LIST [] eq_refl); discriminate.
Defined.

Lemma malformed_filters_throw_first_witness :
  JSON_parse T.platform "{mode:" = inl (ExternalError "SyntaxError")
  /\ checkActionValidity T.platform T.admin
       (T.request "SETTINGS" [] (Some "{mode:") []) (Some Scope_Settings) TASK_TYPE_QUERY
     = inl (ExternalError "SyntaxError")
  /\ createListTask T.platform T.admin (T.request "SETTINGS" [] (Some "{mode:") []) []
     = (inl (ExternalError "SyntaxError"), []).
Proof.
  split; [reflexivity|].
  destruct (malformed_filters_throw_first T.platform T.admin
              (T.request "SETTINGS" [] (Some "{mode:") []) "{mode:"
              (ExternalError "SyntaxError") eq_refl) as [Hcheck Hcreate].
  - discriminate.
  - reflexivity.
  - split; [apply Hcheck|apply Hcreate].
Defined.

Lemma settings_gate_witness :
  checkActionValidity T.platform T.alice (T.request "SETTINGS" ["SHARE"] None ["label-1"])
    (Some Scope_Settings) TASK_TYPE_LIST = inr tt
  /\ checkActionValidity T.platform T.guest (T.request "SETTINGS" ["SHARE"] None ["label-1"])
       (Some Scope_Settings) TASK_TYPE_LIST = inl (ForbiddenAccess None).
Proof.
  split.
  - apply (proj1 (settings_gate T.platform T.alice
                    (T.request "SETTINGS" ["SHARE"] None ["label-1"])
                    TASK_TYPE_LIST [] eq_refl)).
    reflexivity.
  - apply (proj2 (settings_gate T.platform T.guest
                    (T.request "SETTINGS" ["SHARE"] None ["label-1"])
                    TASK_TYPE_LIST [] eq_refl)).
    reflexivity.
Defined.

Lemma capabilities_are_checked_first_witness :
  checkActionValidity T.platform T.guest (T.request "KNOWLEDGE" ["RESTORE"] None ["missing"])
    (Some Scope_Knowledge) TASK_TYPE_RULE = inl (ForbiddenAccess None)
  /\ checkActionValidity T.platform T.guest (T.request "IMPORT" ["SHARE"] None [])
       (Some Scope_Import) TASK_TYPE_LIST = inl (ForbiddenAccess None).
Proof.
  split.
  - destruct (capabilities_are_checked_first T.platform T.guest
                (T.request "KNOWLEDGE" ["RESTORE"] None ["missing"]) TASK_TYPE_RULE []
                eq_refl) as (_ & Hdelete & _).
    apply (Hdelete "RESTORE"); [now left|right; left; reflexivity|reflexivity].
  - destruct (capabilities_are_checked_first T.platform T.guest
                (T.request "IMPORT" ["SHARE"] None []) TASK_TYPE_LIST []
                eq_refl) as (_ & _ & Himport).
    apply Himport. reflexivity.
Defined.


Lemma knowledge_list_gate_witness :
  knowledge_capabilities T.platform T.alice
    (T.request "KNOWLEDGE" ["DELETE"] None ["report--1"])
  /\ checkActionValidity T.platform T.alice
       (T.request "KNOWLEDGE" ["DELETE"] None ["report--1"])
       (Some Scope_Knowledge) TASK_TYPE_LIST = inr tt.
Proof.
  assert (Hcaps : knowledge_capabilities T.platform T.alice
                    (T.request "KNOWLEDGE" ["DELETE"] None ["report--1"])).
  { split; reflexivity. }
  split; [exact Hcaps|].
  apply (proj1 (knowledge_list_gate T.platform T.alice
                  (T.request "KNOWLEDGE" ["DELETE"] None ["report--1"]) []
                  eq_refl Hcaps)).
  split; [|split].
  - intros [H|[]]. discriminate H.
  - intros o [H|[]]. injection H as <-. discriminate.
  - right. intros o [H|[]]. injection H as <-. intros p [<-|[]]. reflexivity.
Defined.


Lemma other_task_types_unsupported_witness :
  checkActionValidity T.platform T.alice (T.request "USER" [] None ["n1"])
    (Some Scope_User) TASK_TYPE_RULE
  = inl (UnsupportedError "A background task should be of type query or list.")
  /\ checkActionValidity T.platform T.alice (T.request "KNOWLEDGE" [] None ["report--1"])
       (Some Scope_Knowledge) TASK_TYPE_RULE
     = inl (UnsupportedError "A background task should be of type query or list.").
Proof.
  assert (Hq : TASK_TYPE_RULE <> TASK_TYPE_QUERY) by (vm_compute; discriminate).
  assert (Hl : TASK_TYPE_RULE <> TASK_TYPE_LIST) by (vm_compute; discriminate).
  split.
  - exact (proj1 (other_task_types_unsupported T.platform T.alice
                    (T.request "USER" [] None ["n1"]) TASK_TYPE_RULE [] eq_refl Hq Hl)).
  - apply (proj2 (other_task_types_unsupported T.platform T.alice
                    (T.request "KNOWLEDGE" [] None ["report--1"]) TASK_TYPE_RULE []
                    eq_refl Hq Hl)).
    split; [reflexivity|discriminate].
Defined.

Lemma created_list_task_record_witness :
  exists listTask tr',
    createListTask T.platform T.alice
      (T.request "KNOWLEDGE" ["DELETE"] None ["report--1"]) []
    = (inr listTask, tr')
    /\ task_ids listTask = ["report--1"]
    /\ task_expected_number (task listTask) = 1.
Proof.
  destruct (createListTask T.platform T.alice
              (T.request "KNOWLEDGE" ["DELETE"] None ["report--1"]) [])
    as [[e|listTask] tr'] eqn:Hrun.
  - vm_compute in Hrun. discriminate Hrun.
  - exists listTask, tr'. split; [reflexivity|].
    destruct (created_list_task_record T.platform T.alice
                (T.request "KNOWLEDGE" ["DELETE"] None ["report--1"]) [] tr'
                listTask Hrun) as (Hids & _ & Hexpected & _).
    split; [exact Hids|exact Hexpected].
Defined.

Lemma created_list_task_rights_witness :
  exists listTask tr',
    createListTask T.platform T.alice
      (T.request "IMPORT" ["DELETE"; "SHARE"] None ["file-1"]) []
    = (inr listTask, tr')
    /\ task_scope (task listTask) = Some "IMPORT".
Proof.
  destruct (createListTask T.platform T.alice
              (T.request "IMPORT" ["DELETE"; "SHARE"] None ["file-1"]) [])
    as [[e|listTask] tr'] eqn:Hrun.
  - vm_compute in Hrun. discriminate Hrun.
  - exists listTask, tr'. split; [reflexivity|].
    exact (proj1 (created_list_task_rights T.platform T.alice
                    (T.request "IMPORT" ["DELETE"; "SHARE"] None ["file-1"]) [] tr'
                    listTask Hrun)).
Defined.

Lemma creation_failure_after_gate_witness :
  checkActionValidity T.deaf_platform T.alice
    (T.request "KNOWLEDGE" ["DELETE"] None ["report--1"]) (Some "KNOWLEDGE") TASK_TYPE_LIST
  = inr tt
  /\ exists listTask,
       createListTask T.deaf_platform T.alice
         (T.request "KNOWLEDGE" ["DELETE"] None ["report--1"]) []
       = (inl (ExternalError "listener down"),
          [creation_audit T.deaf_platform T.alice listTask]).
Proof.
  split; [reflexivity|].
  destruct (createListTask T.deaf_platform T.alice
              (T.request "KNOWLEDGE" ["DELETE"] None ["report--1"]) [])
    as [[e|listTask] tr'] eqn:Hrun.
  - destruct (creation_failure_after_gate T.deaf_platform T.alice
                (T.request "KNOWLEDGE" ["DELETE"] None ["report--1"]) [] tr' e
                eq_refl Hrun) as (listTask & [[Hpublish ->]|[Hpublish _]]).
    + exists listTask. injection Hpublish as <-. reflexivity.
    + discriminate Hpublish.
  - vm_compute in Hrun. discriminate Hrun.
Defined.

Lemma unresolvable_id_writes_nothing_witness :
  In None (map (internalLoadById T.platform T.alice) ["report--1"; "missing"])
  /\ exists message,
       createListTask T.platform T.alice
         (T.request "KNOWLEDGE" ["DELETE"] None ["report--1"; "missing"]) []
       = (inl (ForbiddenAccess message), []).
Proof.
  split; [right; left; reflexivity|].
  apply (unresolvable_id_writes_nothing T.platform T.alice
           (T.request "KNOWLEDGE" ["DELETE"] None ["report--1"; "missing"]) [] []).
  - reflexivity.
  - reflexivity.
  - right; left; reflexivity.
Defined.

End TaskMore.
